(** * obsi-css-diff: version reconciliation and the interactive picker

    A shallow embedding of the parts of [obsi_diff] that decide how
    releases are ordered, reconciled, shown and selected:

    - [obsi_diff/sources/rss.py]        (module [Rss])
    - [obsi_diff/sources/docker_hub.py] (module [Docker])
    - [obsi_diff/sources/electron.py]   (module [Electron])
    - [obsi_diff/cli.py]                (module [Cli])

    Python [str] values are modelled as [string] (ASCII text, which is
    what the feed titles, tags and version numbers consist of), Python
    [int] as [Z], [dict]s used as maps as [gmap], the [seen] set as a
    [gset], and [list]s as [list]. *)

From stdpp Require Import base strings pretty list sorting gmap.
From Stdlib Require Import ZArith Ascii.

Local Open Scope Z_scope.

(** ** Python string primitives *)

Module Py.

(** [c.isdigit()] and the class [\d] on ASCII text. *)
Definition is_digit (c : ascii) : bool :=
  let n := nat_of_ascii c in (48 <=? n)%nat && (n <=? 57)%nat.

Definition digit_value (c : ascii) : Z := Z.of_nat (nat_of_ascii c) - 48.

(** [int(p)] for a run of decimal digits [p]. *)
Fixpoint int_acc (acc : Z) (p : string) : Z :=
  match p with
  | EmptyString => acc
  | String c p' => int_acc (10 * acc + digit_value c) p'
  end.

Definition int (p : string) : Z := int_acc 0 p.

Definition flush (run : string) : list string :=
  match run with
  | EmptyString => []
  | _ => [run]
  end.

(** [re.findall(r"\d+", s)]: the maximal runs of digits of [s], left to
    right; [run] is the run being read. *)
Fixpoint findall_digits_from (run : string) (s : string) : list string :=
  match s with
  | EmptyString => flush run
  | String c s' =>
      if is_digit c
      then findall_digits_from (run +:+ String c EmptyString) s'
      else flush run ++ findall_digits_from EmptyString s'
  end.

Definition findall_digits (s : string) : list string :=
  findall_digits_from EmptyString s.

(** [any(char.isdigit() for char in s)]. *)
Fixpoint any_digit (s : string) : bool :=
  match s with
  | EmptyString => false
  | String c s' => is_digit c || any_digit s'
  end.

(** [s.lower()] on ASCII text. *)
Definition lower_char (c : ascii) : ascii :=
  let n := nat_of_ascii c in
  if (65 <=? n)%nat && (n <=? 90)%nat then ascii_of_nat (n + 32) else c.

Fixpoint lower (s : string) : string :=
  match s with
  | EmptyString => EmptyString
  | String c s' => String (lower_char c) (lower s')
  end.

(** [s.startswith(p)]. *)
Fixpoint startswith (p s : string) : bool :=
  match p, s with
  | EmptyString, _ => true
  | String _ _, EmptyString => false
  | String a p', String b s' => if Ascii.eqb a b then startswith p' s' else false
  end.

(** [q in s] for strings: [q] occurs as a contiguous substring of [s]. *)
Fixpoint contains (q s : string) : bool :=
  startswith q s ||
  match s with
  | EmptyString => false
  | String _ s' => contains q s'
  end.

(** [sep.join(parts)]. *)
Fixpoint join (sep : string) (parts : list string) : string :=
  match parts with
  | [] => EmptyString
  | [p] => p
  | p :: rest => p +:+ sep +:+ join sep rest
  end.

(** [s[:n]]. *)
Fixpoint take (n : nat) (s : string) : string :=
  match n, s with
  | O, _ => EmptyString
  | S _, EmptyString => EmptyString
  | S n', String c s' => String c (take n' s')
  end.

(** ASCII white space as [str.strip()] understands it. *)
Definition is_space (c : ascii) : bool :=
  let n := nat_of_ascii c in
  ((9 <=? n)%nat && (n <=? 13)%nat) || ((28 <=? n)%nat && (n <=? 32)%nat).

Fixpoint lstrip (s : string) : string :=
  match s with
  | EmptyString => EmptyString
  | String c s' => if is_space c then lstrip s' else s
  end.

(** [s.rstrip()], written by recursion from the left: a character is
    kept when it is no white space or something is kept after it. *)
Fixpoint rstrip (s : string) : string :=
  match s with
  | EmptyString => EmptyString
  | String c s' =>
      match rstrip s' with
      | EmptyString => if is_space c then EmptyString else String c EmptyString
      | r => String c r
      end
  end.

Definition strip (s : string) : string := rstrip (lstrip s).

(** [str(n)] for a natural number. *)
Definition str_of_nat (n : nat) : string := pretty n.

(** Comparison of two lists of integers, as Python's [<] on lists: the
    first position where they differ decides; when there is none the
    shorter list is the smaller one. *)
Fixpoint list_lt (a b : list Z) : bool :=
  match a, b with
  | [], [] => false
  | [], _ :: _ => true
  | _ :: _, [] => false
  | x :: a', y :: b' => if (x =? y) then list_lt a' b' else (x <? y)
  end.

(** [b] is not below [a]. *)
Definition list_le (a b : list Z) : Prop := list_lt b a = false.

Section stable_sort.
Context {A K : Type} (lt : K → K → bool) (key : A → K).

(** The key of [y] is not below the key of [x]: the order a sort
    leaves between neighbours. *)
Definition not_after (x y : A) : Prop := lt (key y) (key x) = false.

(** [x] goes before the first element whose key is not below its
    own, so elements with equal keys keep their order. *)
Fixpoint insert_by (x : A) (l : list A) : list A :=
  match l with
  | [] => [x]
  | y :: l' => if lt (key y) (key x) then y :: insert_by x l' else x :: y :: l'
  end.

(** [sorted(l, key=key)] and [l.sort(key=key)]: a stable sort that
    compares keys with [<] only. *)
Fixpoint sorted (l : list A) : list A :=
  match l with
  | [] => []
  | x :: l' => insert_by x (sorted l')
  end.
End stable_sort.

(** Python's [<] on strings: by code point, a proper prefix first. *)
Fixpoint str_lt (a b : string) : bool :=
  match a, b with
  | _, EmptyString => false
  | EmptyString, String _ _ => true
  | String x a', String y b' =>
      if Ascii.eqb x y then str_lt a' b'
      else (nat_of_ascii x <? nat_of_ascii y)%nat
  end.

(** [l.sort(key=key, reverse=True)]: the list is reversed, sorted and
    reversed again, so entries with equal keys keep their order. *)
Definition sorted_reverse {A K : Type} (lt : K → K → bool) (key : A → K)
    (l : list A) : list A :=
  reverse (sorted lt key (reverse l)).

(** [s.replace(old, new)] for a non-empty [old]: the occurrences are
    taken from the left and do not overlap; [skip] counts the
    characters of the occurrence being replaced that are still to be
    dropped. *)
Fixpoint replace_from (old new : string) (skip : nat) (s : string) : string :=
  match s with
  | EmptyString => EmptyString
  | String c s' =>
      match skip with
      | S k => replace_from old new k s'
      | O =>
          if startswith old s
          then new +:+ replace_from old new (String.length old - 1) s'
          else String c (replace_from old new 0 s')
      end
  end.

Definition replace (old new s : string) : string := replace_from old new 0 s.

(** [s.split(sep)[0]] for a separator of one character: what stands
    before its first occurrence. *)
Fixpoint split_head (sep : ascii) (s : string) : string :=
  match s with
  | EmptyString => EmptyString
  | String c s' => if Ascii.eqb c sep then EmptyString else String c (split_head sep s')
  end.

End Py.


(** ** Version keys *)

Module Version.

(** [[int(p) for p in re.findall(r"\d+", v)]]. *)
Definition v_parts (v : string) : list Z := Py.int <$> Py.findall_digits v.

(** [[-x for x in v_parts]]. *)
Definition neg_parts (v : string) : list Z := Z.opp <$> v_parts v.

(** [v] is placed above [w] by a descending version sort: its key
    is below the key of [w]. *)
Definition above (v w : string) : bool := Py.list_lt (neg_parts v) (neg_parts w).

End Version.


(** ** [sources/rss.py]: the changelog adapter *)

Module Rss.

(** One dict of the changelog list. A field is [None] when the key is
    missing (the picker reads these with [.get] and a default); for
    [electron] it also stands for the [None] that [get_data] stores
    before the backfill. [date] is always present: the picker slices
    it without a default. *)
Record entry := Entry {
  version : option string;
  type : option string;
  date : string;
  electron : option string;
  title : option string
}.

(** A feed entry whose title matched [(\d+\.\d+\.\d+)]: the title, the
    matched group, the [updated]/[published] date and the group of the
    [Electron v?(\d+\.\d+\.\d+)] match in the content, if any. *)
Record feed_match := FeedMatch {
  m_title : string;
  v_num : string;
  m_date : string;
  el_match : option string
}.

(** The dict appended to [versions] for one matching entry. *)
Definition build (m : feed_match) : entry :=
  {| version := Some (v_num m);
     type := Some (if Py.contains "Desktop" (m_title m) then "Desktop" else "Mobile");
     date := m_date m;
     electron := el_match m;
     title := Some (m_title m) |}.

(** The sort key [[int(p) for p in re.findall(r"\d+", x["version"])]];
    every entry built above has the key. *)
Definition sort_key (x : entry) : list Z :=
  Version.v_parts (default "" (version x)).

(** Truth value of [v["electron"]]: [None] and the empty string are
    false. *)
Definition truthy (e : option string) : bool :=
  match e with
  | Some (String _ _) => true
  | _ => false
  end.

(** [v["electron"] = e]. *)
Definition with_electron (v : entry) (e : string) : entry :=
  Entry (version v) (type v) (date v) (Some e) (title v).

(** The loop over the sorted list, [last_electron] being threaded
    through. *)
Fixpoint fill (last_electron : string) (versions : list entry) : list entry :=
  match versions with
  | [] => []
  | v :: rest =>
      match electron v with
      | Some (String _ _ as e) => v :: fill e rest
      | _ => with_electron v last_electron :: fill last_electron rest
      end
  end.

(** Lines 57 to 67 of [get_data]: sort, backfill from ["13.0.0"],
    reverse. *)
Definition order_and_fill (versions : list entry) : list entry :=
  reverse (fill "13.0.0" (Py.sorted Py.list_lt sort_key versions)).

(** [get_data] on a fetched feed, from the matching entries on (the
    cache write is modelled in [Cache]). *)
Definition get_data (feed : list feed_match) : list entry :=
  order_and_fill (build <$> feed).

(** The value of [last_electron] after the loop has gone through
    [prefix], starting from [d]. *)
Definition last_seen (d : string) (prefix : list entry) : string :=
  foldl (λ last v, if truthy (electron v) then default last (electron v) else last)
        d prefix.

End Rss.

(** ** [sources/docker_hub.py]: registry tags *)

Module Docker.

(** One dict of the tag list; [version] is [None] when the key is
    missing. *)
Record tag_record := TagRecord {
  version : option string;
  tag : string;
  last_updated : option string
}.

End Docker.

(** ** [sources/electron.py]: engine version to browser version *)

Module Electron.

(** [map_version(electron_version, mapping_data)]; [get_data] is what
    [self.get_data()] returns when no mapping is passed. *)
Definition map_version (get_data : gmap string string)
    (electron_version : string) (mapping_data : option (gmap string string)) : string :=
  let mapping_data := default get_data mapping_data in
  default "Unknown" (mapping_data !! electron_version).

End Electron.

(** ** The text of a table cell *)

Module Rich.

(** [Text(s)] drops the control codes bell, backspace, vertical tab,
    form feed and carriage return; [.plain] is what remains. *)
Definition is_control_code (c : ascii) : bool :=
  let n := nat_of_ascii c in
  (n =? 7)%nat || (n =? 8)%nat || (n =? 11)%nat || (n =? 12)%nat || (n =? 13)%nat.

Fixpoint plain (s : string) : string :=
  match s with
  | EmptyString => EmptyString
  | String c s' => if is_control_code c then plain s' else String c (plain s')
  end.

End Rich.

(** ** [cli.py]: the picker *)

Module Cli.

(** [raw_data] once loaded: the three adapters' results. *)
Record raw := Raw {
  rss : list Rss.entry;
  docker : list Docker.tag_record;
  electron : gmap string string
}.

Inductive screen :=
| LoadingScreen
| ConfirmScreen (version : string) (choice : Docker.tag_record).

(** One row of the [DataTable], as the plain text of its seven cells. *)
Record row := Row {
  c_id : string;
  c_version : string;
  c_type : string;
  c_released : string;
  c_status : string;
  c_electron : string;
  c_chromium : string
}.

Definition cells (r : row) : list string :=
  [c_id r; c_version r; c_type r; c_released r; c_status r; c_electron r; c_chromium r].

(** The application object: the attributes set in [__init__], the
    table and its cursor, whether the search box is shown, the screen
    stack, the notices raised so far and the result of [exit]. *)
Record app := App {
  raw_data : option raw;
  search_query : string;
  show_mobile : bool;
  show_early_access : bool;
  found_only : bool;
  sort_by_priority : bool;
  table : list row;
  cursor_row : nat;
  search_visible : bool;
  screen_stack : list screen;
  notices : list string;
  result : option (string * string)
}.

(** The tuples appended to [filtered]. *)
Record item := Item {
  i_rss : Rss.entry;
  has_d : bool;
  stat : string;
  el_v : string;
  cr_v : string
}.

(** [{v["version"]: v for v in docker if "version" in v}]; a later
    record replaces an earlier one with the same version. *)
Definition docker_map (docker : list Docker.tag_record) : gmap string Docker.tag_record :=
  foldl (λ m v, match Docker.version v with
                | Some k => <[k := v]> m
                | None => m
                end) ∅ docker.

(** [str(x)] for a value that is a string or [None]. *)
Definition str (x : option string) : string := default "None" x.

Section table_rows.
Context (self : app) (docker_map : gmap string Docker.tag_record)
        (electron_map : gmap string string).

Definition v_of (rss : Rss.entry) : string := default "0.0.0" (Rss.version rss).
Definition t_of (rss : Rss.entry) : string := default "Desktop" (Rss.type rss).
Definition el_v_of (rss : Rss.entry) : string := default "---" (Rss.electron rss).
Definition cr_v_of (rss : Rss.entry) : string := default "---" (electron_map !! el_v_of rss).

Definition is_early (rss : Rss.entry) : bool :=
  let title := default "" (Rss.title rss) in
  Py.contains "(Early access)" title || Py.contains "(Insider)" title.

Definition has_d_of (rss : Rss.entry) : bool :=
  bool_decide (is_Some (docker_map !! v_of rss)) && String.eqb (t_of rss) "Desktop".

Definition stat_of (rss : Rss.entry) : string :=
  if has_d_of rss then "Found"
  else if String.eqb (t_of rss) "Desktop" then "Missing" else "N/A".

Definition searchable_text (rss : Rss.entry) : string :=
  Py.lower (v_of rss +:+ " " +:+ t_of rss +:+ " " +:+ stat_of rss +:+ " "
            +:+ Rss.date rss +:+ " " +:+ el_v_of rss +:+ " " +:+ cr_v_of rss).

(** The condition of the first [continue]. *)
Definition filtered_out (rss : Rss.entry) : bool :=
  (negb (show_mobile self) && String.eqb (t_of rss) "Mobile")
  || (negb (show_early_access self) && is_early rss)
  || (found_only self && negb (has_d_of rss)).

(** The condition of the second [continue]. *)
Definition query_miss (rss : Rss.entry) : bool :=
  negb (String.eqb (search_query self) "")
  && negb (Py.contains (Py.lower (search_query self)) (searchable_text rss)).

(** An entry gets past both [continue]s. *)
Definition passes (rss : Rss.entry) : bool :=
  negb (filtered_out rss) && negb (query_miss rss).

Definition seen_key (rss : Rss.entry) : string := v_of rss +:+ "||" +:+ t_of rss.

(** The tuple [(rss, has_d, stat, el_v, cr_v)]. *)
Definition mk_item (rss : Rss.entry) : item :=
  Item rss (has_d_of rss) (stat_of rss) (el_v_of rss) (cr_v_of rss).

(** The loop that fills [filtered], with the set [seen]. *)
Fixpoint collect (seen : gset string) (l : list Rss.entry) : list item :=
  match l with
  | [] => []
  | rss :: rest =>
      if filtered_out rss then collect seen rest
      else if query_miss rss then collect seen rest
      else if bool_decide (seen_key rss ∈ seen) then collect seen rest
      else mk_item rss :: collect ({[seen_key rss]} ∪ seen) rest
  end.

(** The same loop with the two filters left out: what a
    deduplication of a whole list would be. *)
Fixpoint dedupe (seen : gset string) (l : list Rss.entry) : list item :=
  match l with
  | [] => []
  | rss :: rest =>
      if bool_decide (seen_key rss ∈ seen) then dedupe seen rest
      else mk_item rss :: dedupe ({[seen_key rss]} ∪ seen) rest
  end.

(** The group rank [0 if item[1] else (1 if ... == "Mobile" else 2)]. *)
Definition prio (it : item) : Z :=
  if has_d it then 0
  else if bool_decide (Rss.type (i_rss it) = Some "Mobile") then 1 else 2.

(** [sort_key]: a pair in priority mode, a list otherwise. *)
Definition sort_key (it : item) : Z * list Z + list Z :=
  let v_parts := Version.neg_parts (default "0.0.0" (Rss.version (i_rss it))) in
  if sort_by_priority self then inl (prio it, v_parts) else inr v_parts.

Definition format_ver (v : string) : string :=
  if Py.any_digit v then "v" +:+ v else v.

(** The cells of [table.add_row] for the item at position [idx]: the
    number as a string, then the plain text of the [Text] that [hl]
    builds (highlighting and style do not change it; the status is one
    of the three words, which markup leaves as they are). *)
Definition render (idx : nat) (it : item) : row :=
  let rss := i_rss it in
  {| c_id := Py.str_of_nat idx;
     c_version := Rich.plain (str (Rss.version rss));
     c_type := Rich.plain (str (Rss.type rss));
     c_released := Rich.plain (Py.take 10 (Rss.date rss));
     c_status := stat it;
     c_electron := Rich.plain (format_ver (el_v it));
     c_chromium := Rich.plain (format_ver (cr_v it)) |}.
End table_rows.

(** Python's [<] on the keys [sort_key] returns; within one sort all
    keys have the same shape. *)
Definition key_lt (a b : Z * list Z + list Z) : bool :=
  match a, b with
  | inl (p, x), inl (q, y) => if (p =? q) then Py.list_lt x y else (p <? q)
  | inr x, inr y => Py.list_lt x y
  | _, _ => false
  end.

(** [sorted(filtered, key=sort_key)]: the rows in display order. *)
Definition visible (self : app) (data : raw) : list item :=
  Py.sorted key_lt (sort_key self)
    (collect self (docker_map (docker data)) (electron data) ∅ (rss data)).

Definition rows (self : app) (data : raw) : list row :=
  imap render (visible self data).

Definition set_table (self : app) (t : list row) (c : nat) : app :=
  App (raw_data self) (search_query self) (show_mobile self) (show_early_access self)
      (found_only self) (sort_by_priority self) t c (search_visible self)
      (screen_stack self) (notices self) (result self).

(** [update_table]: nothing before the data is there; otherwise the
    table is cleared (the cursor goes back to the first row) and
    filled again. *)
Definition update_table (self : app) : app :=
  match raw_data self with
  | None => self
  | Some data => set_table self (rows self data) 0
  end.

Definition set_flags (self : app) (q : string) (m e f p : bool) : app :=
  App (raw_data self) q m e f p (table self) (cursor_row self) (search_visible self)
      (screen_stack self) (notices self) (result self).

Definition set_search_visible (self : app) (b : bool) : app :=
  App (raw_data self) (search_query self) (show_mobile self) (show_early_access self)
      (found_only self) (sort_by_priority self) (table self) (cursor_row self) b
      (screen_stack self) (notices self) (result self).

Definition set_screen_stack (self : app) (st : list screen) : app :=
  App (raw_data self) (search_query self) (show_mobile self) (show_early_access self)
      (found_only self) (sort_by_priority self) (table self) (cursor_row self)
      (search_visible self) st (notices self) (result self).

(** [self.notify(msg, severity="error")]. *)
Definition notify (self : app) (msg : string) : app :=
  App (raw_data self) (search_query self) (show_mobile self) (show_early_access self)
      (found_only self) (sort_by_priority self) (table self) (cursor_row self)
      (search_visible self) (screen_stack self) (notices self ++ [msg]) (result self).

(** [self.exit(result=...)]. *)
Definition exit (self : app) (r : string * string) : app :=
  App (raw_data self) (search_query self) (show_mobile self) (show_early_access self)
      (found_only self) (sort_by_priority self) (table self) (cursor_row self)
      (search_visible self) (screen_stack self) (notices self) (Some r).

Definition push_screen (self : app) (s : screen) : app :=
  set_screen_stack self (s :: screen_stack self).

Definition action_toggle_mobile (self : app) : app :=
  update_table (set_flags self (search_query self) (negb (show_mobile self))
    (show_early_access self) (found_only self) (sort_by_priority self)).

Definition action_toggle_early (self : app) : app :=
  update_table (set_flags self (search_query self) (show_mobile self)
    (negb (show_early_access self)) (found_only self) (sort_by_priority self)).

Definition action_toggle_found (self : app) : app :=
  update_table (set_flags self (search_query self) (show_mobile self)
    (show_early_access self) (negb (found_only self)) (sort_by_priority self)).

Definition action_toggle_sort (self : app) : app :=
  update_table (set_flags self (search_query self) (show_mobile self)
    (show_early_access self) (found_only self) (negb (sort_by_priority self))).

Definition on_input_changed (self : app) (value : string) : app :=
  update_table (set_flags self value (show_mobile self)
    (show_early_access self) (found_only self) (sort_by_priority self)).

Definition action_toggle_search (self : app) : app := set_search_visible self true.

Definition action_cancel_search (self : app) : app :=
  update_table (set_flags (set_search_visible self false) "" (show_mobile self)
    (show_early_access self) (found_only self) (sort_by_priority self)).

(** What an action can raise. *)
Inductive exn := KeyError | RowDoesNotExist.

Inductive outcome :=
| Ok (self : app)
| Raised (e : exn).

(** [{v["version"]: v for v in docker}], as [action_submit] builds it:
    a record without the key raises [KeyError]. *)
Definition submit_map (docker : list Docker.tag_record)
    : option (gmap string Docker.tag_record) :=
  foldl (λ acc v, m ← acc; k ← Docker.version v; Some (<[k := v]> m)) (Some ∅) docker.

(** [action_submit]. The cursor row is a number in the model, so the
    test for [None] has no branch here; [table.get_row_at] raises on
    an empty table. The callback [handle_confirm] reads
    [docker_map[v_str]]: the screen carries that record. *)
Definition action_submit (self : app) : outcome :=
  match table self !! cursor_row self with
  | None => Raised RowDoesNotExist
  | Some row =>
      let v_str := Py.strip (c_version row) in
      match submit_map (from_option docker [] (raw_data self)) with
      | None => Raised KeyError
      | Some docker_map =>
          match docker_map !! v_str with
          | None => Ok (notify self ("No Docker tag for v" +:+ v_str))
          | Some choice => Ok (push_screen self (ConfirmScreen v_str choice))
          end
      end
  end.

(** [ConfirmScreen.dismiss(choice)] followed by [handle_confirm]. *)
Definition dismiss (self : app) (choice : bool) : app :=
  match screen_stack self with
  | ConfirmScreen v_str d :: rest =>
      let self := set_screen_stack self rest in
      if choice then exit self (v_str, Docker.tag d) else self
  | _ => self
  end.

(** [" ".join(str(x).lower() for x in t.get_row_at(idx))]. *)
Definition row_text (r : row) : string := Py.join " " (Py.lower <$> cells r).

Section match_scan.
Context (t : list row) (c count : Z) (q : string) (d : Z).

Definition idx_of (i : Z) : nat := Z.to_nat ((c + i * d) `mod` count).

Definition hit (idx : nat) : bool :=
  from_option (λ r, Py.contains q (row_text r)) false (t !! idx).

(** The [for] loop: the first [i] of the range whose row matches. *)
Fixpoint scan (range : list Z) : option nat :=
  match range with
  | [] => None
  | i :: rest => if hit (idx_of i) then Some (idx_of i) else scan rest
  end.
End match_scan.

(** [jump_to_match(d)]; [range(1, count)] is [seqZ 1 (count - 1)]. *)
Definition jump_to_match (self : app) (d : Z) : app :=
  if String.eqb (search_query self) "" then self
  else
    let t := table self in
    let c := Z.of_nat (cursor_row self) in
    let count := Z.of_nat (length t) in
    let q := Py.lower (search_query self) in
    match scan t c count q d (seqZ 1 (count - 1)) with
    | Some idx => set_table self t idx
    | None => self
    end.

Definition action_next_match (self : app) : app := jump_to_match self 1.
Definition action_prev_match (self : app) : app := jump_to_match self (-1).

(** [on_mount]: the loading screen is shown while the worker fetches. *)
Definition on_mount (self : app) : app := push_screen self LoadingScreen.

(** The object [__init__] builds. *)
Definition init : app :=
  App None "" true true false true [] 0 false [] [] None.

(** [handle_data_loaded]: store the data, drop the loading screen,
    fill the table. *)
Definition handle_data_loaded (self : app) (data : raw) : app :=
  let self := App (Some data) (search_query self) (show_mobile self)
                (show_early_access self) (found_only self) (sort_by_priority self)
                (table self) (cursor_row self) (search_visible self)
                (tail (screen_stack self)) (notices self) (result self) in
  update_table self.

(** The composite key of a row: version and platform. *)
Definition row_key (rss : Rss.entry) : string * string := (v_of rss, t_of rss).

(** The modes of the session, read off the application object. *)
Inductive mode := Loading | Browsing | Searching | Confirming | Done.

Definition mode_of (self : app) : mode :=
  match result self, screen_stack self with
  | Some _, _ => Done
  | None, ConfirmScreen _ _ :: _ => Confirming
  | None, LoadingScreen :: _ => Loading
  | None, [] => if search_visible self then Searching else Browsing
  end.

(** A version that a table cell shows unchanged and [strip] leaves
    alone: no control codes, no white space at either end. *)
Definition clean (v : string) : bool :=
  String.eqb (Rich.plain v) v && String.eqb (Py.strip v) v.

(** What the changelog adapter's pattern [\d+\.\d+\.\d+] can match:
    digits and dots only. *)
Fixpoint dotted_numeric (v : string) : bool :=
  match v with
  | EmptyString => true
  | String c v' => (Py.is_digit c || Ascii.eqb c ".") && dotted_numeric v'
  end.

(** Data as the adapters build it: every changelog entry has a clean
    version, every tag record has a version. *)
Definition well_formed (data : raw) : bool :=
  forallb (λ x, from_option clean false (Rss.version x)) (rss data)
  && forallb (λ d, bool_decide (is_Some (Docker.version d))) (docker data).

End Cli.

(** ** The snapshot files *)

Module Cache.

(** A snapshot file: [None] when it does not exist, else its text. *)
Definition file := option string.

(** What [Path.write_text] does to the file, one step at a time: it
    opens the path itself in mode ["w"], which empties it, and then
    writes the text, here in the chunks the buffer hands over. There
    is no temporary file and no rename. *)
Inductive op := Truncate | Append (chunk : string).

Definition write_text (chunks : list string) : list op :=
  Truncate :: (Append <$> chunks).

Definition apply (f : file) (o : op) : file :=
  match o with
  | Truncate => Some ""
  | Append chunk => Some (default "" f +:+ chunk)
  end.

Definition run (ops : list op) (f : file) : file := foldl apply f ops.

(** The file when the process stops after [n] steps. *)
Definition interrupted (n : nat) (ops : list op) (f : file) : file :=
  run (take n ops) f.

Definition text (chunks : list string) : string := foldr String.append "" chunks.

(** The write at the end of a successful fetch: [rss.py] line 68 and
    [electron.py] line 36 always write; [docker_hub.py] line 74 only
    when the tag list is not empty. [dumps] is the text of
    [json.dumps(..., indent=2)] in chunks. *)
Definition rss_snapshot (dumps : list string) : list op := write_text dumps.
Definition electron_snapshot (dumps : list string) : list op := write_text dumps.
Definition docker_snapshot (versions_empty : bool) (dumps : list string) : list op :=
  if versions_empty then [] else write_text dumps.

End Cache.

(** ** The two patterns of the changelog adapter *)

Module Re.

(** The longest run of digits at the start of [s], and what follows. *)
Fixpoint digits (s : string) : string * string :=
  match s with
  | EmptyString => (EmptyString, EmptyString)
  | String c s' =>
      if Py.is_digit c
      then let '(d, r) := digits s' in (String c d, r)
      else (EmptyString, s)
  end.

(** [\d+] at the start of [s]. The run is taken whole: in both
    patterns a dot or the end follows, so giving a digit back never
    lets the rest match. *)
Definition digits1 (s : string) : option (string * string) :=
  match digits s with
  | (EmptyString, _) => None
  | p => Some p
  end.

(** [\.] at the start of [s]. *)
Definition dot (s : string) : option string :=
  match s with
  | EmptyString => None
  | String c r => if Ascii.eqb c "." then Some r else None
  end.

(** [\d+\.\d+\.\d+] at the start of [s]: the text matched. *)
Definition triple_at (s : string) : option string :=
  '(d1, r) ← digits1 s; r ← dot r;
  '(d2, r) ← digits1 r; r ← dot r;
  '(d3, _) ← digits1 r;
  Some (d1 +:+ "." +:+ d2 +:+ "." +:+ d3).

(** [re.search]: the match at the leftmost position that has one. *)
Fixpoint search (at_start : string → option string) (s : string) : option string :=
  match at_start s with
  | Some m => Some m
  | None =>
      match s with
      | EmptyString => None
      | String _ s' => search at_start s'
      end
  end.

(** [re.search(r"(\d+\.\d+\.\d+)", title)], group 1. *)
Definition search_version (title : string) : option string := search triple_at title.

(** A literal, given in lower case, at the start of [s] under
    [re.IGNORECASE]: what follows it. *)
Fixpoint iprefix (lit s : string) : option string :=
  match lit, s with
  | EmptyString, _ => Some s
  | String _ _, EmptyString => None
  | String a lit', String b s' =>
      if Ascii.eqb a (Py.lower_char b) then iprefix lit' s' else None
  end.

(** [Electron v?(\d+\.\d+\.\d+)] at the start of [s], ignoring case:
    group 1. The optional [v] is tried first, then left out. *)
Definition electron_at (s : string) : option string :=
  r ← iprefix "electron " s;
  let with_v :=
    match r with
    | EmptyString => None
    | String c r' => if Ascii.eqb (Py.lower_char c) "v" then triple_at r' else None
    end in
  match with_v with
  | Some m => Some m
  | None => triple_at r
  end.

(** [re.search(r"Electron v?(\d+\.\d+\.\d+)", content, re.IGNORECASE)],
    group 1. *)
Definition search_electron (content : string) : option string :=
  search electron_at content.

(** Digits only. *)
Fixpoint all_digits (s : string) : bool :=
  match s with
  | EmptyString => true
  | String c s' => Py.is_digit c && all_digits s'
  end.

End Re.

(** ** The snapshot file as the adapters read and write it *)

Module Io.

(** The path of a snapshot: no file, a file whose read raises
    [OSError], or a file with its text. *)
Inductive file := NoFile | Unreadable | Text (s : string).

(** The snapshot and whether [write_text] on it succeeds. *)
Record disk := Disk { snapshot : file; writable : bool }.

Inductive exn := OSError.

(** What a call leaves: its value or the exception that escapes it,
    and the disk. *)
Inductive ret (A : Type) :=
| Return (a : A) (d : disk)
| Raises (e : exn) (d : disk).
Arguments Return {A} a d.
Arguments Raises {A} e d.

(** The first block of every [get_data]: nothing is read when [force]
    is set or the file does not exist; a text that [json.loads] rejects
    is a miss. *)
Inductive cached (A : Type) := Hit (a : A) | Miss | ReadError.
Arguments Hit {A} a.
Arguments Miss {A}.
Arguments ReadError {A}.

Definition read {A : Type} (loads : string → option A) (force : bool) (d : disk)
    : cached A :=
  if force then Miss
  else match snapshot d with
       | NoFile => Miss
       | Unreadable => ReadError
       | Text s => match loads s with Some a => Hit a | None => Miss end
       end.

(** [CACHE_FILE.write_text(s)]: [None] when it raises. *)
Definition write_text (d : disk) (s : string) : option disk :=
  if writable d then Some (Disk (Text s) true) else None.

End Io.

(** ** [RSSSource.get_data] *)

Module RssSource.

(** What [get_data] reads of a feed entry: [title], the value of the
    first [content] element, [updated] and [published]; [None] for a
    missing key. *)
Record feed_entry := FeedEntry {
  fe_title : option string;
  fe_content : option string;
  fe_updated : option string;
  fe_published : option string
}.

(** The body of the loop over [feed.entries]: [None] for an entry that
    is skipped. *)
Definition parse (entry : feed_entry) : option Rss.feed_match :=
  let title := default "" (fe_title entry) in
  v_num ← Re.search_version title;
  let content := default "" (fe_content entry) in
  Some (Rss.FeedMatch title v_num
          (default (default "---" (fe_published entry)) (fe_updated entry))
          (Re.search_electron content)).

(** The list built from a parsed feed: lines 35 to 67. *)
Definition versions_of (entries : list feed_entry) : list Rss.entry :=
  Rss.get_data (omap parse entries).

Section get_data.
Context (loads : string → option (list Rss.entry)) (dumps : list Rss.entry → string).

(** [get_data(force)]; [response] is the parsed feed, [None] when the
    request or the parse raises. A cache that cannot be read or decoded
    is passed over. *)
Definition get_data (force : bool) (d : Io.disk) (response : option (list feed_entry))
    : Io.ret (list Rss.entry) :=
  match Io.read loads force d with
  | Io.Hit versions => Io.Return versions d
  | _ =>
      match response with
      | None => Io.Return [] d
      | Some entries =>
          let versions := versions_of entries in
          match Io.write_text d (dumps versions) with
          | Some d' => Io.Return versions d'
          | None => Io.Raises Io.OSError d
          end
      end
  end.
End get_data.

End RssSource.

(** ** [DockerSource.get_data] *)

Module DockerSource.

(** One element of [results]: [name] is [None] when the key is
    missing, which makes [result["name"]] raise. *)
Record tag_result := TagResult {
  name : option string;
  r_last_updated : option string
}.

(** One page: [data.get("results", [])] and [data.get("next")]. *)
Record page := Page {
  results : list tag_result;
  next : option string
}.

Definition noise : list string := ["latest"; "develop"; "amd64"; "arm64"; "-ls"].

Definition clean_version (tag_name : string) : string :=
  Py.split_head "-" (Py.replace "version-" "" tag_name).

(** The record for a tag name, [None] when the tag is passed over. *)
Definition keep (tag_name : string) (last_updated : option string)
    : option Docker.tag_record :=
  if existsb (λ x, Py.contains x tag_name) noise then None
  else
    let v_parts := Py.findall_digits (clean_version tag_name) in
    match v_parts with
    | [] => None
    | p :: _ =>
        if Py.int p <? 1 then None
        else Some (Docker.TagRecord (Some (clean_version tag_name)) tag_name last_updated)
    end.

(** The loop over the results of one page; [None] when a result has
    no name. *)
Fixpoint add_results (rs : list tag_result) (versions : list Docker.tag_record)
    : option (list Docker.tag_record) :=
  match rs with
  | [] => Some versions
  | r :: rest =>
      tag_name ← name r;
      match keep tag_name (r_last_updated r) with
      | None => add_results rest versions
      | Some v => add_results rest (versions ++ [v])
      end
  end.

(** Truth value of [url]. *)
Definition url_set (url : option string) : bool :=
  match url with
  | Some (String _ _) => true
  | _ => false
  end.

(** The [while url] loop. [responses] are the answers to the requests
    in the order they are made, [None] for one that raises; a request
    past the last answer raises as well. [None]: the [except] branch. *)
Fixpoint fetch (responses : list (option page)) (versions : list Docker.tag_record)
    : option (list Docker.tag_record) :=
  match responses with
  | [] => None
  | None :: _ => None
  | Some data :: rest =>
      versions ← add_results (results data) versions;
      if url_set (next data) then fetch rest versions else Some versions
  end.

(** The key [x["last_updated"] or ""]. *)
Definition updated_key (x : Docker.tag_record) : string :=
  match Docker.last_updated x with
  | Some (String _ _ as s) => s
  | _ => EmptyString
  end.

(** [versions.sort(key=..., reverse=True)]. *)
Definition sort_versions (versions : list Docker.tag_record) : list Docker.tag_record :=
  Py.sorted_reverse Py.str_lt updated_key versions.

(** What holds of a record that [keep] builds: its version is the
    cleaned tag name, the tag holds no noise word, the version holds no
    hyphen and starts its numbers with one that is at least 1. *)
Definition kept (r : Docker.tag_record) : Prop :=
  Docker.version r = Some (clean_version (Docker.tag r))
  ∧ Forall (λ x, Py.contains x (Docker.tag r) = false) noise
  ∧ Py.contains "-" (clean_version (Docker.tag r)) = false
  ∧ ∃ p ps, Version.v_parts (clean_version (Docker.tag r)) = p :: ps ∧ 1 ≤ p.

Section get_data.
Context (loads : string → option (list Docker.tag_record))
        (dumps : list Docker.tag_record → string).

(** [get_data(force)], called as the picker calls it, without a
    progress bar. *)
Definition get_data (force : bool) (d : Io.disk) (responses : list (option page))
    : Io.ret (list Docker.tag_record) :=
  match Io.read loads force d with
  | Io.Hit versions => Io.Return versions d
  | _ =>
      match fetch responses [] with
      | None => Io.Return [] d
      | Some [] => Io.Return [] d
      | Some versions =>
          let versions := sort_versions versions in
          match Io.write_text d (dumps versions) with
          | Some d' => Io.Return versions d'
          | None => Io.Raises Io.OSError d
          end
      end
  end.
End get_data.

End DockerSource.

(** ** [ElectronSource.get_data] *)

Module ElectronSource.

Section get_data.
Context (loads : string → option (gmap string string))
        (dumps : gmap string string → string).

(** [get_data(force)]; [response] is the decoded mapping, [None] when
    the request raises. Only a text that cannot be decoded is passed
    over when the cache is read; the write stands inside the [try]. *)
Definition get_data (force : bool) (d : Io.disk) (response : option (gmap string string))
    : Io.ret (gmap string string) :=
  match Io.read loads force d with
  | Io.Hit data => Io.Return data d
  | Io.ReadError => Io.Raises Io.OSError d
  | Io.Miss =>
      match response with
      | None => Io.Return ∅ d
      | Some data =>
          match Io.write_text d (dumps data) with
          | Some d' => Io.Return data d'
          | None => Io.Return ∅ d
          end
      end
  end.
End get_data.

End ElectronSource.

(** ** The confirmation dialog and the worker of [cli.py] *)

Module Modal.

(** [ConfirmScreen.on_button_pressed]: the choice handed to [dismiss]. *)
Definition on_button_pressed (button_id : string) : bool := String.eqb button_id "yes".

(** [ConfirmScreen.on_key]: the choice handed to [dismiss], if any. *)
Definition on_key (key : string) : option bool :=
  if String.eqb key "enter" then Some true
  else if String.eqb key "escape" then Some false
  else None.

(** A key pressed while the dialog is on top. *)
Definition key_pressed (self : Cli.app) (key : string) : Cli.app :=
  match on_key key with
  | Some choice => Cli.dismiss self choice
  | None => self
  end.

(** A button of the dialog pressed. *)
Definition button_pressed (self : Cli.app) (button_id : string) : Cli.app :=
  Cli.dismiss self (on_button_pressed button_id).

End Modal.

Module Worker.

Section fetch_all_data.
Context (loads_rss : string → option (list Rss.entry))
        (dumps_rss : list Rss.entry → string)
        (loads_docker : string → option (list Docker.tag_record))
        (dumps_docker : list Docker.tag_record → string)
        (loads_electron : string → option (gmap string string))
        (dumps_electron : gmap string string → string).

(** [fetch_all_data]: the three adapters in turn, each on its own
    snapshot; the data is handed to [handle_data_loaded], an exception
    ends the application. *)
Definition fetch_all_data (self : Cli.app) (force_refresh : bool)
    (d_rss d_docker d_electron : Io.disk)
    (feed : option (list RssSource.feed_entry))
    (tags : list (option DockerSource.page))
    (mapping : option (gmap string string)) : Cli.app + Io.exn :=
  match RssSource.get_data loads_rss dumps_rss force_refresh d_rss feed with
  | Io.Raises e _ => inr e
  | Io.Return rss _ =>
      match DockerSource.get_data loads_docker dumps_docker force_refresh d_docker tags with
      | Io.Raises e _ => inr e
      | Io.Return docker _ =>
          match ElectronSource.get_data loads_electron dumps_electron
                  force_refresh d_electron mapping with
          | Io.Raises e _ => inr e
          | Io.Return electron _ =>
              inl (Cli.handle_data_loaded self (Cli.Raw rss docker electron))
          end
      end
  end.
End fetch_all_data.

End Worker.

(** ** [__main__.py]: what [interact] does with the result *)

Module Main.

(** What [run_tui] returns: [None], a string or the selection. *)
Inductive tui_result :=
| RNone
| RStr (s : string)
| RDict (version tag : string).

(** The result of a session that ended in the state [self]. *)
Definition result_of (self : Cli.app) : tui_result :=
  match Cli.result self with
  | Some (version, tag) => RDict version tag
  | None => RNone
  end.


Inductive outcome :=
| Cancelled
| Failed (message : string)
| Selected (version tag : string)
| TypeError.

(** [interact]: a false result is a cancellation, a string that starts
    with ["Error"] ends the program with status 1, anything else is
    read as a selection (subscripting a string with a key raises). *)
Definition interact (result : tui_result) : outcome :=
  match result with
  | RNone => Cancelled
  | RStr EmptyString => Cancelled
  | RStr s => if Py.startswith "Error" s then Failed s else TypeError
  | RDict version tag => Selected version tag
  end.

End Main.

(** ** The comparison the specification describes *)

Module Spec.

(** A component list against a list of zeros. *)
Fixpoint vs_zeros (a : list Z) : comparison :=
  match a with
  | [] => Eq
  | x :: a' => match (x ?= 0) with Eq => vs_zeros a' | c => c end
  end.

(** Component-wise comparison in which the shorter list is padded
    with zeros on the right. *)
Fixpoint padded_compare (a b : list Z) : comparison :=
  match a, b with
  | [], _ => CompOpp (vs_zeros b)
  | _, [] => vs_zeros a
  | x :: a', y :: b' => match (x ?= y) with Eq => padded_compare a' b' | c => c end
  end.

Definition version_compare (v w : string) : comparison :=
  padded_compare (Version.v_parts v) (Version.v_parts w).

End Spec.

(** * Properties *)

Example findall_digits_ex : Py.findall_digits "v1.20.3-beta4" = ["1"; "20"; "3"; "4"].
Proof. reflexivity. Qed.

Example strip_ex : Py.strip "  1.2.3 " = "1.2.3".
Proof. reflexivity. Qed.

Example str_of_nat_ex : Py.str_of_nat 12 = "12".
Proof. reflexivity. Qed.

Example v_parts_ex : Version.v_parts "9.10.0" = [9; 10; 0].
Proof. reflexivity. Qed.

(** ** Lists of integers under Python's [<] *)

Section list_lt_facts.
Implicit Types a b c : list Z.

Lemma list_lt_irrefl a : Py.list_lt a a = false.
Proof.
  induction a as [|x a IH]; simpl; [done|].
  by rewrite Z.eqb_refl.
Qed.

Lemma list_lt_trans a b c :
  Py.list_lt a b = true → Py.list_lt b c = true → Py.list_lt a c = true.
Proof.
  revert b c. induction a as [|x a IH]; intros [|y b] [|z c]; simpl; try done.
  destruct (Z.eqb_spec x y) as [->|Hxy].
  - destruct (Z.eqb_spec y z) as [->|Hyz]; [apply IH|done].
  - destruct (Z.eqb_spec y z) as [->|Hyz].
    + intros H _. by destruct (Z.eqb_spec x z).
    + intros H1%Z.ltb_lt H2%Z.ltb_lt.
      destruct (Z.eqb_spec x z) as [->|Hxz]; [lia|]. apply Z.ltb_lt. lia.
Qed.

Lemma list_lt_total a b :
  Py.list_lt a b = false → Py.list_lt b a = false → a = b.
Proof.
  revert b. induction a as [|x a IH]; intros [|y b]; simpl; try done.
  destruct (Z.eqb_spec x y) as [->|Hxy].
  - rewrite Z.eqb_refl. intros H1 H2. f_equal. by apply IH.
  - destruct (Z.eqb_spec y x) as [->|_]; [done|].
    intros H1%Z.ltb_ge H2%Z.ltb_ge. lia.
Qed.

Lemma list_lt_asym a b : Py.list_lt a b = true → Py.list_lt b a = false.
Proof.
  intros H. destruct (Py.list_lt b a) eqn:E; [|done].
  pose proof (list_lt_trans _ _ _ H E) as Haa. by rewrite list_lt_irrefl in Haa.
Qed.

Lemma list_le_trans a b c : Py.list_le a b → Py.list_le b c → Py.list_le a c.
Proof.
  unfold Py.list_le. intros Hab Hbc.
  destruct (Py.list_lt c a) eqn:Hca; [|done].
  destruct (Py.list_lt a b) eqn:Hab'.
  - pose proof (list_lt_trans _ _ _ Hca Hab') as H. congruence.
  - pose proof (list_lt_total _ _ Hab' Hab) as ->. congruence.
Qed.

(** Python's [<] on lists, spelled out: a common prefix, then either
    a smaller component or the end of the left list. *)
Lemma list_lt_spec a b :
  Py.list_lt a b = true ↔
  ∃ p, (∃ y b', a = p ∧ b = p ++ y :: b')
     ∨ (∃ x y a' b', a = p ++ x :: a' ∧ b = p ++ y :: b' ∧ x < y).
Proof.
  split.
  - revert b. induction a as [|x a IH]; intros [|y b]; simpl; try done.
    + intros _. exists []. left. by exists y, b.
    + destruct (Z.eqb_spec x y) as [->|Hxy].
      * intros (p & [(y' & b' & -> & ->)|(x' & y' & a' & b' & -> & -> & Hlt)])%IH.
        -- exists (y :: p). left. by exists y', b'.
        -- exists (y :: p). right. by exists x', y', a', b'.
      * intros Hlt%Z.ltb_lt. exists []. right. by exists x, y, a, b.
  - intros (p & [(y & b' & -> & ->)|(x & y & a' & b' & -> & -> & Hlt)]).
    + induction p as [|z p IH]; simpl; [done|]. by rewrite Z.eqb_refl.
    + induction p as [|z p IH]; simpl.
      * destruct (Z.eqb_spec x y); [lia|]. by apply Z.ltb_lt.
      * by rewrite Z.eqb_refl.
Qed.
End list_lt_facts.

(** ** The stable sort *)

Section sorted_facts.
Context {A K : Type} (lt : K → K → bool) (key : A → K).

Lemma insert_by_Permutation x l : Py.insert_by lt key x l ≡ₚ x :: l.
Proof.
  induction l as [|y l IH]; simpl; [done|].
  destruct (lt (key y) (key x)); [|done].
  rewrite IH. apply Permutation_swap.
Qed.

Lemma sorted_Permutation l : Py.sorted lt key l ≡ₚ l.
Proof.
  induction l as [|x l IH]; simpl; [done|].
  by rewrite insert_by_Permutation, IH.
Qed.

Lemma elem_of_sorted x l : x ∈ Py.sorted lt key l ↔ x ∈ l.
Proof. by rewrite sorted_Permutation. Qed.

Lemma length_sorted l : length (Py.sorted lt key l) = length l.
Proof. by rewrite sorted_Permutation. Qed.

Context (lt_asym : ∀ k1 k2, lt k1 k2 = true → lt k2 k1 = false).

Lemma insert_by_Sorted x l :
  Sorted (Py.not_after lt key) l → Sorted (Py.not_after lt key) (Py.insert_by lt key x l).
Proof.
  induction l as [|y l IH]; simpl; intros Hs.
  - by repeat constructor.
  - destruct (lt (key y) (key x)) eqn:E.
    + apply Sorted_inv in Hs as [Hs Hhd]. constructor; [by apply IH|].
      destruct l as [|z l]; simpl.
      * constructor. by apply lt_asym.
      * destruct (lt (key z) (key x)).
        -- constructor. by apply HdRel_inv in Hhd.
        -- constructor. by apply lt_asym.
    + constructor; [done|]. by constructor.
Qed.

Lemma sorted_Sorted l : Sorted (Py.not_after lt key) (Py.sorted lt key l).
Proof.
  induction l as [|x l IH]; simpl; [constructor|]. by apply insert_by_Sorted.
Qed.
End sorted_facts.

(** ** The version order of the two sort modes *)

Section version_order_facts.
Implicit Types a b : list Z.

Local Instance opp_inj : Inj (=) (=) Z.opp.
Proof. intros x y. lia. Qed.

Lemma list_lt_opp_spec a b :
  Py.list_lt (Z.opp <$> a) (Z.opp <$> b) = true ↔
  ∃ p, (∃ y b', a = p ∧ b = p ++ y :: b')
     ∨ (∃ x y a' b', a = p ++ x :: a' ∧ b = p ++ y :: b' ∧ y < x).
Proof.
  rewrite list_lt_spec. split.
  - intros (p & [(y & b' & Ha & Hb)|(x & y & a' & b' & Ha & Hb & Hlt)]).
    + apply fmap_app_inv in Hb as (p' & r & -> & Hr & ->).
      symmetry in Hr. apply fmap_cons_inv in Hr as (y' & b'' & -> & -> & ->).
      apply (inj (fmap Z.opp)) in Ha as ->.
      exists p'. left. by exists y', b''.
    + apply fmap_app_inv in Ha as (p1 & r1 & -> & Hr1 & ->).
      apply fmap_app_inv in Hb as (p2 & r2 & Hp & Hr2 & ->).
      apply (inj (fmap Z.opp)) in Hp as ->.
      symmetry in Hr1, Hr2.
      apply fmap_cons_inv in Hr1 as (x' & a'' & -> & -> & ->).
      apply fmap_cons_inv in Hr2 as (y' & b'' & -> & -> & ->).
      exists p2. right. exists x', y', a'', b''. repeat split; lia.
  - intros (p & [(y & b' & -> & ->)|(x & y & a' & b' & -> & -> & Hlt)]).
    + exists (Z.opp <$> p). left. exists (- y), (Z.opp <$> b').
      by rewrite fmap_app, fmap_cons.
    + exists (Z.opp <$> p). right. exists (- x), (- y), (Z.opp <$> a'), (Z.opp <$> b').
      rewrite !fmap_app, !fmap_cons. repeat split; lia.
Qed.

Lemma list_lt_opp_padded a b :
  length a = length b →
  Py.list_lt (Z.opp <$> a) (Z.opp <$> b) = true ↔ Spec.padded_compare a b = Gt.
Proof.
  revert b. induction a as [|x a IH]; intros [|y b]; simpl; try done.
  intros [= Hlen]. destruct (Z.eqb_spec (- x) (- y)) as [Heq|Hne].
  - assert (x = y) as -> by lia. rewrite Z.compare_refl. by apply IH.
  - destruct (Z.compare_spec x y) as [->|Hlt|Hgt]; [done| |].
    + split; [|done]. intros ?%Z.ltb_lt. lia.
    + split; [done|]. intros _. apply Z.ltb_lt. lia.
Qed.
End version_order_facts.

(** C1, as stated, at the versions ["1.2"] and ["1.2.0"]: with zero
    padding the two compare equal, but the sort key of ["1.2"] is
    strictly below that of ["1.2.0"], so both sort modes move ["1.2"]
    above ["1.2.0"] even when it came second. *)
Lemma version_padding_counterexample :
  let it v := Cli.Item (Rss.Entry (Some v) (Some "Desktop") "---" None None)
                false "Missing" "---" "---" in
  let self p := Cli.App None "" true true false p [] 0 false [] [] None in
  Spec.version_compare "1.2" "1.2.0" = Eq
  ∧ Version.above "1.2" "1.2.0" = true
  ∧ Py.sorted Cli.key_lt (Cli.sort_key (self true)) [it "1.2.0"; it "1.2"]
    = [it "1.2"; it "1.2.0"]
  ∧ Py.sorted Cli.key_lt (Cli.sort_key (self false)) [it "1.2.0"; it "1.2"]
    = [it "1.2"; it "1.2.0"].
Proof. by vm_compute. Qed.

(** C1, amended. Both sort modes order two rows of one group by
    [Version.above] on their version strings. That order compares the
    integer components one by one and the first difference decides, the
    larger component being above, so ["10.0.0"] is above ["9.10.0"],
    which is above ["9.9.9"]; on component lists of equal length it is
    the zero-padded comparison; and when the components of one version
    are a proper prefix of the other's, the shorter version is above the
    longer one (nothing is padded). *)
Theorem version_order :
  (∀ self x y,
     Cli.key_lt (Cli.sort_key self x) (Cli.sort_key self y) =
     let vx := default "0.0.0" (Rss.version (Cli.i_rss x)) in
     let vy := default "0.0.0" (Rss.version (Cli.i_rss y)) in
     if Cli.sort_by_priority self
     then if Cli.prio x =? Cli.prio y then Version.above vx vy
          else Cli.prio x <? Cli.prio y
     else Version.above vx vy)
  ∧ (∀ v w,
       Version.above v w = true ↔
       ∃ p, (∃ y r, Version.v_parts v = p ∧ Version.v_parts w = p ++ y :: r)
          ∨ (∃ x y r1 r2, Version.v_parts v = p ++ x :: r1
                          ∧ Version.v_parts w = p ++ y :: r2 ∧ y < x))
  ∧ (∀ v w,
       length (Version.v_parts v) = length (Version.v_parts w) →
       Version.above v w = true ↔ Spec.version_compare v w = Gt)
  ∧ Version.above "10.0.0" "9.10.0" = true
  ∧ Version.above "9.10.0" "9.9.9" = true.
Proof.
  split_and!.
  - intros self x y. unfold Cli.sort_key, Cli.key_lt, Version.above.
    by destruct (Cli.sort_by_priority self).
  - intros v w. apply list_lt_opp_spec.
  - intros v w. apply list_lt_opp_padded.
  - reflexivity.
  - reflexivity.
Qed.

Lemma version_order_witness :
  Version.above "1.2" "1.2.5" = true ∧ Version.above "2.0.1" "2.0.0" = true.
Proof.
  destruct version_order as (_ & Hspec & Hpad & _). split.
  - apply Hspec. exists [1; 2]. left. by exists 5, [].
  - apply Hpad; reflexivity.
Defined.

(** ** The changelog adapter: order and backfill *)

Section backfill_facts.
Implicit Types (d : string) (l : list Rss.entry).

Lemma fill_imap d l :
  Rss.fill d l =
  imap (λ i v, if Rss.truthy (Rss.electron v) then v
               else Rss.with_electron v (Rss.last_seen d (take i l))) l.
Proof.
  revert d. induction l as [|x l IH]; intros d; [done|].
  cbn [Rss.fill imap]. destruct (Rss.electron x) as [[|c e]|] eqn:E; simpl;
    f_equal; rewrite IH; apply imap_ext; intros i v _; simpl;
    unfold Rss.last_seen; simpl; by rewrite E.
Qed.

Lemma length_fill d l : length (Rss.fill d l) = length l.
Proof. by rewrite fill_imap, length_imap. Qed.

(** After the loop no entry is left without an engine version. *)
Lemma fill_truthy d l :
  d ≠ "" → Forall (λ v, Rss.truthy (Rss.electron v) = true) (Rss.fill d l).
Proof.
  revert d. induction l as [|x l IH]; intros d Hd; simpl; [constructor|].
  destruct (Rss.electron x) as [[|c e]|] eqn:E.
  - constructor; [by destruct d|by apply IH].
  - constructor; [by rewrite E|by apply IH].
  - constructor; [by destruct d|by apply IH].
Qed.

Lemma ascending_sorted l :
  StronglySorted (Py.not_after Py.list_lt Rss.sort_key)
                 (Py.sorted Py.list_lt Rss.sort_key l).
Proof.
  apply Sorted_StronglySorted.
  - intros x y z. apply list_le_trans.
  - apply sorted_Sorted. intros k1 k2. apply list_lt_asym.
Qed.
End backfill_facts.

(** C3. [get_data] sorts the entries ascending by the integer
    components of their versions, gives every entry without an engine
    version the last engine version seen before it in that order
    (["13.0.0"] when there was none) and returns the list reversed,
    newest first; no entry is left without an engine version. For the
    entries 1.0.0 (engine 13.0.0), 1.1.0 (none) and 1.2.0 (engine
    20.0.0) the result gives 20.0.0 to 1.2.0 and 13.0.0 to 1.1.0 and
    1.0.0. *)
Theorem backfill_newest_first :
  (∀ feed,
     let asc := Py.sorted Py.list_lt Rss.sort_key (Rss.build <$> feed) in
     asc ≡ₚ Rss.build <$> feed
     ∧ StronglySorted (λ x y, Py.list_le (Rss.sort_key x) (Rss.sort_key y)) asc
     ∧ Rss.get_data feed =
       reverse (imap (λ i v, if Rss.truthy (Rss.electron v) then v
                             else Rss.with_electron v
                                    (Rss.last_seen "13.0.0" (take i asc))) asc)
     ∧ Forall (λ v, Rss.truthy (Rss.electron v) = true) (Rss.get_data feed))
  ∧ (let m v e := Rss.FeedMatch ("Obsidian Desktop " +:+ v) v "2024-01-01" e in
     (Rss.version <$> Rss.get_data
        [m "1.0.0" (Some "13.0.0"); m "1.1.0" None; m "1.2.0" (Some "20.0.0")])
     = [Some "1.2.0"; Some "1.1.0"; Some "1.0.0"]
     ∧ (Rss.electron <$> Rss.get_data
        [m "1.0.0" (Some "13.0.0"); m "1.1.0" None; m "1.2.0" (Some "20.0.0")])
     = [Some "20.0.0"; Some "13.0.0"; Some "13.0.0"]
     ∧ (Rss.electron <$> Rss.get_data
        [m "1.2.0" (Some "20.0.0"); m "1.0.0" (Some "13.0.0"); m "1.1.0" None])
     = [Some "20.0.0"; Some "13.0.0"; Some "13.0.0"]).
Proof.
  split.
  - intros feed asc. split_and!.
    + apply sorted_Permutation.
    + apply ascending_sorted.
    + unfold Rss.get_data, Rss.order_and_fill. by rewrite fill_imap.
    + unfold Rss.get_data, Rss.order_and_fill.
      apply Forall_reverse. by apply fill_truthy.
  - by vm_compute.
Qed.

(** ** The loop of [update_table] *)

Section collect_facts.
Context (self : Cli.app) (dm : gmap string Docker.tag_record)
        (em : gmap string string).
Implicit Types (seen : gset string) (l : list Rss.entry) (x : Rss.entry)
               (it : Cli.item).

Lemma collect_cons seen x l :
  Cli.collect self dm em seen (x :: l) =
  if Cli.passes self dm em x && negb (bool_decide (Cli.seen_key x ∈ seen))
  then Cli.mk_item dm em x :: Cli.collect self dm em ({[Cli.seen_key x]} ∪ seen) l
  else Cli.collect self dm em seen l.
Proof.
  unfold Cli.passes. simpl.
  destruct (Cli.filtered_out self dm x), (Cli.query_miss self dm em x); simpl; try done.
  by destruct (bool_decide (Cli.seen_key x ∈ seen)).
Qed.

Lemma collect_dedupe seen l :
  Cli.collect self dm em seen l =
  Cli.dedupe dm em seen (List.filter (Cli.passes self dm em) l).
Proof.
  revert seen. induction l as [|x l IH]; intros seen; [done|].
  rewrite collect_cons. cbn [List.filter].
  destruct (Cli.passes self dm em x); simpl; [|by apply IH].
  destruct (bool_decide (Cli.seen_key x ∈ seen)); simpl; by rewrite IH.
Qed.

Lemma elem_of_collect seen l it :
  it ∈ Cli.collect self dm em seen l →
  ∃ x, x ∈ l ∧ it = Cli.mk_item dm em x ∧ Cli.passes self dm em x = true
       ∧ Cli.seen_key x ∉ seen.
Proof.
  revert seen. induction l as [|x l IH]; intros seen; [by intros ?%elem_of_nil|].
  rewrite collect_cons.
  destruct (Cli.passes self dm em x) eqn:Hp; simpl.
  - case_bool_decide as Hin; simpl.
    + intros (y & ? & ? & ? & ?)%IH. exists y. split_and!; [by right|done..].
    + intros [->|(y & ? & ? & ? & Hy)%IH]%elem_of_cons.
      * exists x. split_and!; [by left|done..].
      * exists y. split_and!; [by right|done..|set_solver].
  - intros (y & ? & ? & ? & ?)%IH. exists y. split_and!; [by right|done..].
Qed.

Lemma collect_NoDup seen l :
  NoDup ((Cli.seen_key ∘ Cli.i_rss) <$> Cli.collect self dm em seen l).
Proof.
  revert seen. induction l as [|x l IH]; intros seen; [constructor|].
  rewrite collect_cons.
  destruct (Cli.passes self dm em x && negb (bool_decide (Cli.seen_key x ∈ seen)));
    [|by apply IH].
  rewrite fmap_cons. constructor; [|by apply IH].
  intros (it & Hk & (y & _ & -> & _ & Hy)%elem_of_collect)%list_elem_of_fmap.
  simpl in Hk. set_solver.
Qed.

Lemma row_key_seen_key x y :
  Cli.row_key x = Cli.row_key y → Cli.seen_key x = Cli.seen_key y.
Proof. unfold Cli.row_key, Cli.seen_key. by intros [= -> ->]. Qed.

(** A collected row is the first entry of the list, among those that
    get past the filters, with its version and platform. *)
Lemma collect_first seen l it :
  it ∈ Cli.collect self dm em seen l →
  List.find (λ x, Cli.passes self dm em x
                  && bool_decide (Cli.row_key x = Cli.row_key (Cli.i_rss it))) l
  = Some (Cli.i_rss it).
Proof.
  revert seen. induction l as [|x l IH]; intros seen; [by intros ?%elem_of_nil|].
  rewrite collect_cons. cbn [List.find].
  destruct (Cli.passes self dm em x) eqn:Hp; simpl; [|by apply IH].
  case_bool_decide as Hin; simpl.
  - intros Hit. pose proof Hit as (y & _ & -> & _ & Hy)%elem_of_collect.
    case_bool_decide as Hk; [|by eapply IH].
    apply row_key_seen_key in Hk. simpl in Hk. congruence.
  - intros [->|Hit]%elem_of_cons.
    + simpl. by rewrite bool_decide_eq_true_2.
    + pose proof Hit as (y & _ & -> & _ & Hy)%elem_of_collect.
      case_bool_decide as Hk; [|by eapply IH].
      apply row_key_seen_key in Hk. simpl in Hk. set_solver.
Qed.

(** An entry that gets past the filters is collected when no entry
    before it that also gets past them has its key. *)
Lemma collect_complete seen pre x post :
  Cli.passes self dm em x = true →
  Cli.seen_key x ∉ seen →
  (∀ y, y ∈ pre → Cli.passes self dm em y = true →
        Cli.seen_key y ≠ Cli.seen_key x) →
  Cli.mk_item dm em x ∈ Cli.collect self dm em seen (pre ++ x :: post).
Proof.
  intros Hx. revert seen. induction pre as [|y pre IH]; intros seen Hseen Hpre; cbn [app].
  - rewrite collect_cons, Hx, bool_decide_eq_false_2 by done. by left.
  - rewrite collect_cons.
    destruct (Cli.passes self dm em y) eqn:Hy; simpl.
    + case_bool_decide; simpl.
      * apply IH; [done|]. intros z Hz. apply Hpre. by right.
      * right. apply IH.
        -- assert (Cli.seen_key y ≠ Cli.seen_key x) by (apply Hpre; [by left|done]).
           rewrite not_elem_of_union, not_elem_of_singleton. split; [congruence|done].
        -- intros z Hz. apply Hpre. by right.
    + apply IH; [done|]. intros z Hz. apply Hpre. by right.
Qed.
End collect_facts.

(** ** The tag index *)

Section docker_map_facts.
Implicit Types (docker : list Docker.tag_record) (m : gmap string Docker.tag_record).

Lemma docker_fold_lookup docker m v d :
  foldl (λ m v, match Docker.version v with
                | Some k => <[k := v]> m
                | None => m
                end) m docker !! v = Some d →
  m !! v = Some d ∨ (d ∈ docker ∧ Docker.version d = Some v).
Proof.
  revert m. induction docker as [|e docker IH]; intros m; simpl; [by left|].
  intros [Hm|[Hin Hv]]%IH; [|right; split; [by right|done]].
  destruct (Docker.version e) as [k|] eqn:Hk; [|by left].
  apply lookup_insert_Some in Hm as [[-> ->]|[_ Hm]]; [|by left].
  right. split; [by left|done].
Qed.

Lemma docker_fold_is_Some docker m v :
  is_Some (foldl (λ m v, match Docker.version v with
                         | Some k => <[k := v]> m
                         | None => m
                         end) m docker !! v) ↔
  is_Some (m !! v) ∨ ∃ d, d ∈ docker ∧ Docker.version d = Some v.
Proof.
  revert m. induction docker as [|e docker IH]; intros m; simpl.
  - split; [by left|]. intros [?|(d & []%elem_of_nil & _)]. done.
  - rewrite IH. destruct (Docker.version e) as [k|] eqn:Hk.
    + rewrite lookup_insert_is_Some. split.
      * intros [[->|[_ ?]]|(d & ? & ?)]; [right; exists e; split; [by left|done]
                                          |by left|right; exists d; split; [by right|done]].
      * intros [?|(d & [->|?]%elem_of_cons & Hd)].
        -- destruct (decide (k = v)); left; [by left|by right].
        -- left. left. congruence.
        -- right. by exists d.
    + split.
      * intros [?|(d & ? & ?)]; [by left|right; exists d; split; [by right|done]].
      * intros [?|(d & [->|?]%elem_of_cons & Hd)]; [by left|congruence|right; by exists d].
Qed.

Lemma docker_map_is_Some docker v :
  is_Some (Cli.docker_map docker !! v) ↔
  ∃ d, d ∈ docker ∧ Docker.version d = Some v.
Proof.
  unfold Cli.docker_map. rewrite docker_fold_is_Some, lookup_empty.
  split; [intros [[? [=]]|?]; done|by right].
Qed.

Lemma docker_map_Some docker v d :
  Cli.docker_map docker !! v = Some d → d ∈ docker ∧ Docker.version d = Some v.
Proof.
  unfold Cli.docker_map. intros [Hm|?]%docker_fold_lookup; [|done].
  by rewrite lookup_empty in Hm.
Qed.

(** With a version in every record, [action_submit] builds the map
    [update_table] builds. *)
Lemma submit_map_docker_map docker :
  forallb (λ d, bool_decide (is_Some (Docker.version d))) docker = true →
  Cli.submit_map docker = Some (Cli.docker_map docker).
Proof.
  unfold Cli.submit_map, Cli.docker_map. generalize (∅ : gmap string Docker.tag_record).
  induction docker as [|e docker IH]; intros m; simpl; [done|].
  intros [He Hrest]%andb_prop. apply bool_decide_eq_true in He as [k Hk].
  rewrite Hk. simpl. by apply IH.
Qed.
End docker_map_facts.

(** ** The rows shown *)

Section visible_facts.
Context (self : Cli.app) (data : Cli.raw).
Let dm := Cli.docker_map (Cli.docker data).
Let em := Cli.electron data.

Lemma visible_item it :
  it ∈ Cli.visible self data →
  Cli.i_rss it ∈ Cli.rss data ∧ it = Cli.mk_item dm em (Cli.i_rss it)
  ∧ Cli.passes self dm em (Cli.i_rss it) = true.
Proof.
  unfold Cli.visible. rewrite elem_of_sorted.
  by intros (x & ? & -> & ? & _)%elem_of_collect.
Qed.

Lemma rows_lookup i it :
  Cli.visible self data !! i = Some it →
  Cli.rows self data !! i = Some (Cli.render i it).
Proof. intros H. unfold Cli.rows. by rewrite list_lookup_imap, H. Qed.

Lemma rows_lookup_inv i r :
  Cli.rows self data !! i = Some r →
  ∃ it, Cli.visible self data !! i = Some it ∧ r = Cli.render i it.
Proof.
  unfold Cli.rows. rewrite list_lookup_imap.
  destruct (Cli.visible self data !! i) as [it|]; [|done].
  intros [= <-]. by exists it.
Qed.
End visible_facts.

(** ** Availability *)

(** C2. The status of a row is ["Found"] exactly when its platform is
    ["Desktop"] and some tag record has its version; it is ["N/A"] for
    every other platform, so for every ["Mobile"] row whether or not a
    tag has its version; and it is ["Missing"] for a ["Desktop"] row
    whose version no tag record has, in particular when the registry
    returned nothing. Every row shown carries the status of its entry. *)
Theorem availability_status (self : Cli.app) (data : Cli.raw) :
  let dm := Cli.docker_map (Cli.docker data) in
  let em := Cli.electron data in
  (∀ rss,
     let it := Cli.mk_item dm em rss in
     let tagged := ∃ d, d ∈ Cli.docker data ∧ Docker.version d = Some (Cli.v_of rss) in
     (Cli.stat it = "Found" ↔ Cli.t_of rss = "Desktop" ∧ tagged)
     ∧ (Cli.stat it = "Missing" ↔ Cli.t_of rss = "Desktop" ∧ ¬ tagged)
     ∧ (Cli.stat it = "N/A" ↔ Cli.t_of rss ≠ "Desktop")
     ∧ (Cli.t_of rss = "Mobile" → Cli.stat it = "N/A")
     ∧ (Cli.docker data = [] → Cli.t_of rss = "Desktop" → Cli.stat it = "Missing"))
  ∧ (∀ i it,
       Cli.visible self data !! i = Some it →
       Cli.i_rss it ∈ Cli.rss data
       ∧ it = Cli.mk_item dm em (Cli.i_rss it)
       ∧ ∃ r, Cli.rows self data !! i = Some r ∧ Cli.c_status r = Cli.stat it).
Proof.
  intros dm em. split.
  - intros rss it tagged. subst it. unfold Cli.mk_item, Cli.stat_of, Cli.has_d_of. simpl.
    pose proof (docker_map_is_Some (Cli.docker data) (Cli.v_of rss)) as Htag.
    fold tagged in Htag. fold dm in Htag |- *.
    destruct (String.eqb_spec (Cli.t_of rss) "Desktop") as [Ht|Ht];
      case_bool_decide as Hd; simpl; rewrite ?Ht; rewrite Htag in Hd.
    + clear Htag. split_and!; [intuition discriminate..|].
      intros Hnil _. destruct Hd as (d & Hin & _). rewrite Hnil in Hin.
      by apply elem_of_nil in Hin.
    + clear Htag. split_and!; intuition discriminate.
    + clear Htag. split_and!; intuition discriminate.
    + clear Htag. split_and!; intuition discriminate.
  - intros i it Hi. pose proof (list_elem_of_lookup_2 _ _ _ Hi) as Hin.
    apply visible_item in Hin as (? & ? & _). split_and!; [done..|].
    exists (Cli.render i it). split; [by apply rows_lookup|done].
Qed.

Lemma availability_status_witness :
  let tags := [Docker.TagRecord (Some "1.5.0") "1.5.0-ls1" None] in
  let data := Cli.Raw [] tags ∅ in
  let mobile := Rss.Entry (Some "1.5.0") (Some "Mobile") "2024-01-01" None None in
  Cli.stat (Cli.mk_item (Cli.docker_map tags) ∅ mobile) = "N/A".
Proof.
  intros tags data mobile.
  destruct (availability_status Cli.init data) as [H _].
  destruct (H mobile) as (_ & _ & _ & Hm & _). apply Hm. reflexivity.
Defined.

(** ** One row per version and platform *)

(** C4, as stated, with early access hidden: of two entries for
    1.5.0 on Desktop the first in the list is an early-access one; the
    row shown for the key is the second entry, not the first. *)
Lemma first_seen_counterexample :
  let early := Rss.Entry (Some "1.5.0") (Some "Desktop") "2023-12-01" (Some "25.8.1")
                 (Some "Obsidian Desktop 1.5.0 (Early access)") in
  let public := Rss.Entry (Some "1.5.0") (Some "Desktop") "2023-12-20" (Some "25.8.1")
                  (Some "Obsidian Desktop 1.5.0 (Public)") in
  let data := Cli.Raw [early; public] [] ∅ in
  let self := Cli.App (Some data) "" true false false true [] 0 false [] [] None in
  Cli.i_rss <$> Cli.visible self data = [public]
  ∧ List.find (λ x, bool_decide (Cli.row_key x = Cli.row_key public)) (Cli.rss data)
    = Some early
  ∧ early ≠ public.
Proof. by vm_compute. Qed.

(** C4, amended. The rows shown hold at most one row for each version
    and platform, and the row for a key is the first entry of the list,
    in iteration order, among the entries with that key that get past
    the filter flags and the search query. *)
Theorem visible_one_row_per_key (self : Cli.app) (data : Cli.raw) :
  let dm := Cli.docker_map (Cli.docker data) in
  let em := Cli.electron data in
  NoDup ((Cli.row_key ∘ Cli.i_rss) <$> Cli.visible self data)
  ∧ ∀ it,
      it ∈ Cli.visible self data →
      List.find (λ x, Cli.passes self dm em x
                      && bool_decide (Cli.row_key x = Cli.row_key (Cli.i_rss it)))
                (Cli.rss data)
      = Some (Cli.i_rss it).
Proof.
  intros dm em. split.
  - unfold Cli.visible. rewrite sorted_Permutation.
    apply (NoDup_fmap_1 (λ k : string * string, k.1 +:+ "||" +:+ k.2)).
    rewrite <- list_fmap_compose. apply collect_NoDup.
  - intros it. unfold Cli.visible. rewrite elem_of_sorted. apply collect_first.
Qed.

Lemma visible_one_row_per_key_witness :
  let early := Rss.Entry (Some "1.5.0") (Some "Desktop") "2023-12-01" (Some "25.8.1")
                 (Some "Obsidian Desktop 1.5.0 (Early access)") in
  let public := Rss.Entry (Some "1.5.0") (Some "Desktop") "2023-12-20" (Some "25.8.1")
                  (Some "Obsidian Desktop 1.5.0 (Public)") in
  let data := Cli.Raw [early; public] [] ∅ in
  let self := Cli.App (Some data) "" true false false true [] 0 false [] [] None in
  List.find (λ x, Cli.passes self (Cli.docker_map []) ∅ x
                  && bool_decide (Cli.row_key x = Cli.row_key public)) [early; public]
  = Some public.
Proof.
  intros early public data self.
  destruct (visible_one_row_per_key self data) as [_ H].
  apply (H (Cli.mk_item (Cli.docker_map []) ∅ public)).
  apply list_elem_of_In. vm_compute. by left.
Defined.

(** ** The browser version of a row *)

(** C5, as stated, with an empty engine map: the engine version
    25.8.1 of the only entry is not in the map, and the row shows
    ["---"], not ["Unknown"]. *)
Lemma browser_unknown_counterexample :
  let data := Cli.Raw [Rss.Entry (Some "1.5.0") (Some "Desktop") "2023-12-20"
                         (Some "25.8.1") (Some "Obsidian Desktop 1.5.0 (Public)")] [] ∅ in
  let self := Cli.handle_data_loaded Cli.init data in
  (Cli.electron data !! "25.8.1") = None
  ∧ Cli.cr_v <$> Cli.visible self data = ["---"]
  ∧ Cli.c_chromium <$> Cli.table self = ["---"]
  ∧ "---" ≠ "Unknown".
Proof. by vm_compute. Qed.

(** C5, amended. For a row whose engine version is not a key of the
    engine map (so for every row when the map is empty) the picker
    resolves the browser version to ["---"] and shows ["---"]; when the
    engine version is a key, the row has the mapped browser version. The
    adapter's own [map_version] answers ["Unknown"] for a missing key. *)
Theorem browser_version_placeholder :
  (∀ self data i it,
     Cli.visible self data !! i = Some it →
     (Cli.electron data !! Cli.el_v it = None →
      Cli.cr_v it = "---"
      ∧ ∃ r, Cli.rows self data !! i = Some r ∧ Cli.c_chromium r = "---")
     ∧ (∀ c, Cli.electron data !! Cli.el_v it = Some c → Cli.cr_v it = c))
  ∧ (∀ get_data m v,
       m !! v = None → Electron.map_version get_data v (Some m) = "Unknown")
  ∧ (∀ get_data v,
       get_data !! v = None → Electron.map_version get_data v None = "Unknown").
Proof.
  split_and!.
  - intros self data i it Hi.
    pose proof (list_elem_of_lookup_2 _ _ _ Hi) as (_ & Hit & _)%visible_item.
    assert (Cli.el_v it = Cli.el_v_of (Cli.i_rss it)) as Hel by (by rewrite Hit at 1).
    assert (Cli.cr_v it = Cli.cr_v_of (Cli.electron data) (Cli.i_rss it)) as Hcr
      by (by rewrite Hit at 1).
    rewrite Hel. split.
    + intros E. assert (Cli.cr_v it = "---") as Hdash.
      { rewrite Hcr. unfold Cli.cr_v_of. by rewrite E. }
      split; [done|]. exists (Cli.render i it). split; [by apply rows_lookup|].
      unfold Cli.render. simpl. by rewrite Hdash.
    + intros c E. rewrite Hcr. unfold Cli.cr_v_of. by rewrite E.
  - intros get_data m v Hv. unfold Electron.map_version. simpl. by rewrite Hv.
  - intros get_data v Hv. unfold Electron.map_version. simpl. by rewrite Hv.
Qed.

Lemma browser_version_placeholder_witness :
  let e := Rss.Entry (Some "1.5.0") (Some "Desktop") "2023-12-20" (Some "25.8.1")
             (Some "Obsidian Desktop 1.5.0 (Public)") in
  let data := Cli.Raw [e] [] ∅ in
  let it := Cli.Item e false "Missing" "25.8.1" "---" in
  (Cli.cr_v it = "---"
   ∧ ∃ r, Cli.rows Cli.init data !! 0%nat = Some r ∧ Cli.c_chromium r = "---")
  ∧ Electron.map_version ∅ "25.8.1" (Some ∅) = "Unknown".
Proof.
  intros e data it.
  destruct browser_version_placeholder as (Hrow & Hmap & _). split.
  - apply (Hrow Cli.init data 0%nat it); reflexivity.
  - apply Hmap. reflexivity.
Defined.

(** ** Deduplication comes after the filters *)

(** C10. The loop deduplicates what is left after the filter flags
    and the search query have been applied: the rows shown are the
    sorted deduplication of the filtered list. So when the first entry
    for a key is held back by a filter, a later entry with the same key
    that gets past the filters is shown, provided no entry between them
    or before them that gets past the filters has the key; and the row
    that stands for a key changes when early access is switched off. *)
Theorem dedup_after_filter :
  (∀ self data,
     let dm := Cli.docker_map (Cli.docker data) in
     let em := Cli.electron data in
     Cli.visible self data =
     Py.sorted Cli.key_lt (Cli.sort_key self)
       (Cli.dedupe dm em ∅ (List.filter (Cli.passes self dm em) (Cli.rss data))))
  ∧ (∀ self data l1 x0 l2 x l3,
       let dm := Cli.docker_map (Cli.docker data) in
       let em := Cli.electron data in
       Cli.rss data = l1 ++ x0 :: l2 ++ x :: l3 →
       Cli.row_key x0 = Cli.row_key x →
       Cli.passes self dm em x0 = false →
       Cli.passes self dm em x = true →
       (∀ y, y ∈ l1 ++ l2 → Cli.passes self dm em y = true →
             Cli.seen_key y ≠ Cli.seen_key x) →
       Cli.mk_item dm em x ∈ Cli.visible self data)
  ∧ (let early := Rss.Entry (Some "1.5.0") (Some "Desktop") "2023-12-01" (Some "25.8.1")
                    (Some "Obsidian Desktop 1.5.0 (Early access)") in
     let public := Rss.Entry (Some "1.5.0") (Some "Desktop") "2023-12-20" (Some "25.8.1")
                     (Some "Obsidian Desktop 1.5.0 (Public)") in
     let self := Cli.handle_data_loaded Cli.init (Cli.Raw [early; public] [] ∅) in
     Cli.c_released <$> Cli.table self = ["2023-12-01"]
     ∧ Cli.c_released <$> Cli.table (Cli.action_toggle_early self) = ["2023-12-20"]).
Proof.
  split_and!.
  - intros self data dm em. unfold Cli.visible. by rewrite collect_dedupe.
  - intros self data l1 x0 l2 x l3 dm em Hrss Hkey Hx0 Hx Hpre.
    unfold Cli.visible. rewrite elem_of_sorted, Hrss.
    replace (l1 ++ x0 :: l2 ++ x :: l3) with ((l1 ++ x0 :: l2) ++ x :: l3)
      by (by rewrite <- app_assoc).
    apply collect_complete; [done|apply not_elem_of_empty|].
    intros y [Hy|[->|Hy]%elem_of_cons]%elem_of_app Hp.
    + apply Hpre; [apply elem_of_app; by left|done].
    + fold dm em in Hp. congruence.
    + apply Hpre; [apply elem_of_app; by right|done].
  - by vm_compute.
Qed.

Lemma dedup_after_filter_witness :
  let early := Rss.Entry (Some "1.5.0") (Some "Desktop") "2023-12-01" (Some "25.8.1")
                 (Some "Obsidian Desktop 1.5.0 (Early access)") in
  let public := Rss.Entry (Some "1.5.0") (Some "Desktop") "2023-12-20" (Some "25.8.1")
                  (Some "Obsidian Desktop 1.5.0 (Public)") in
  let data := Cli.Raw [early; public] [] ∅ in
  let self := Cli.App (Some data) "" true false false true [] 0 false [] [] None in
  Cli.mk_item (Cli.docker_map []) ∅ public ∈ Cli.visible self data.
Proof.
  intros early public data self.
  destruct dedup_after_filter as (_ & H & _).
  apply (H self data [] early [] public []); try reflexivity.
  by intros y ?%elem_of_nil.
Defined.

(** ** Versions made of digits and dots are shown unchanged *)

Section clean_facts.
Implicit Types (c : ascii) (v : string).

Lemma digit_or_dot_plain c :
  Py.is_digit c || Ascii.eqb c "." = true →
  Rich.is_control_code c = false ∧ Py.is_space c = false.
Proof.
  intros [Hd|Hdot%Ascii.eqb_eq]%orb_prop; [|by subst c].
  unfold Py.is_digit in Hd. unfold Rich.is_control_code, Py.is_space.
  apply andb_prop in Hd as [Hlo%Nat.leb_le Hhi%Nat.leb_le].
  generalize dependent (nat_of_ascii c). intros n Hlo Hhi. split.
  - repeat (apply orb_false_intro); apply Nat.eqb_neq; lia.
  - apply orb_false_intro; apply andb_false_iff.
    + right. apply Nat.leb_gt. lia.
    + right. apply Nat.leb_gt. lia.
Qed.

Lemma dotted_numeric_plain v : Cli.dotted_numeric v = true → Rich.plain v = v.
Proof.
  induction v as [|c v IH]; simpl; [done|].
  intros [[-> _]%digit_or_dot_plain Hv]%andb_prop. by rewrite IH.
Qed.

Lemma dotted_numeric_lstrip v : Cli.dotted_numeric v = true → Py.lstrip v = v.
Proof.
  destruct v as [|c v]; simpl; [done|].
  by intros [[_ ->]%digit_or_dot_plain _]%andb_prop.
Qed.

Lemma dotted_numeric_rstrip v : Cli.dotted_numeric v = true → Py.rstrip v = v.
Proof.
  induction v as [|c v IH]; simpl; [done|].
  intros [[_ Hc]%digit_or_dot_plain Hv]%andb_prop. rewrite IH, Hc by done.
  by destruct v.
Qed.

(** Every version the changelog pattern can match is [clean]. *)
Lemma dotted_numeric_clean v : Cli.dotted_numeric v = true → Cli.clean v = true.
Proof.
  intros Hv. unfold Cli.clean, Py.strip.
  rewrite dotted_numeric_plain, dotted_numeric_lstrip, dotted_numeric_rstrip by done.
  by rewrite String.eqb_refl.
Qed.
End clean_facts.

(** ** Submitting the row under the cursor *)

Section submit_facts.
Context (self : Cli.app) (data : Cli.raw) (row : Cli.row).
Hypothesis Hraw : Cli.raw_data self = Some data.
Hypothesis Hwf : Cli.well_formed data = true.
Hypothesis Htable : Cli.table self = Cli.rows self data.
Hypothesis Hrow : Cli.table self !! Cli.cursor_row self = Some row.

(** The entry behind the row under the cursor. *)
Lemma cursor_row_entry :
  ∃ x, x ∈ Cli.rss data
       ∧ Rss.version x = Some (Cli.c_version row)
       ∧ Py.strip (Cli.c_version row) = Cli.c_version row
       ∧ Cli.c_status row = Cli.stat_of (Cli.docker_map (Cli.docker data)) x
       ∧ Cli.c_type row = Rich.plain (Cli.str (Rss.type x)).
Proof.
  rewrite Htable in Hrow. apply rows_lookup_inv in Hrow as (it & Hi & ->).
  pose proof (list_elem_of_lookup_2 _ _ _ Hi) as (Hin & Hit & _)%visible_item.
  apply andb_prop in Hwf as [Hrss _].
  rewrite forallb_forall in Hrss. pose proof (Hrss _ (proj1 (list_elem_of_In _ _) Hin)) as Hv.
  destruct (Rss.version (Cli.i_rss it)) as [v|] eqn:Ev; [|done]. simpl in Hv.
  apply andb_prop in Hv as [Hplain%String.eqb_eq Hstrip%String.eqb_eq].
  exists (Cli.i_rss it). unfold Cli.render. simpl. rewrite Ev. simpl. rewrite Hplain.
  split_and!; [done..|by rewrite Hit at 1|done].
Qed.

Lemma submit_decides :
  Cli.action_submit self =
  match Cli.docker_map (Cli.docker data) !! Cli.c_version row with
  | None => Cli.Ok (Cli.notify self ("No Docker tag for v" +:+ Cli.c_version row))
  | Some choice => Cli.Ok (Cli.push_screen self (Cli.ConfirmScreen (Cli.c_version row) choice))
  end.
Proof.
  destruct cursor_row_entry as (x & _ & _ & Hstrip & _).
  unfold Cli.action_submit. rewrite Hrow, Hraw, Hstrip. simpl.
  apply andb_prop in Hwf as [_ Hdocker].
  by rewrite (submit_map_docker_map _ Hdocker).
Qed.

Lemma submit_missing :
  Cli.c_status row = "Missing" →
  Cli.action_submit self =
  Cli.Ok (Cli.notify self ("No Docker tag for v" +:+ Cli.c_version row)).
Proof.
  intros Hstat. rewrite submit_decides.
  destruct cursor_row_entry as (x & _ & Hv & _ & Hs & _).
  rewrite Hstat in Hs. unfold Cli.stat_of, Cli.has_d_of, Cli.v_of in Hs.
  rewrite Hv in Hs. simpl in Hs.
  destruct (Cli.docker_map (Cli.docker data) !! Cli.c_version row) as [d|] eqn:E; [|done].
  rewrite bool_decide_eq_true_2 in Hs by done. simpl in Hs.
  by destruct (String.eqb (Cli.t_of x) "Desktop").
Qed.

Lemma submit_tagged d :
  d ∈ Cli.docker data → Docker.version d = Some (Cli.c_version row) →
  ∃ choice, choice ∈ Cli.docker data
            ∧ Docker.version choice = Some (Cli.c_version row)
            ∧ Cli.action_submit self =
              Cli.Ok (Cli.push_screen self (Cli.ConfirmScreen (Cli.c_version row) choice)).
Proof.
  intros Hd Hv. rewrite submit_decides.
  assert (is_Some (Cli.docker_map (Cli.docker data) !! Cli.c_version row)) as [c Hc].
  { apply docker_map_is_Some. by exists d. }
  rewrite Hc. exists c. by apply docker_map_Some in Hc as [? ?].
Qed.

Lemma status_found_tagged :
  Cli.c_status row = "Found" →
  ∃ d, d ∈ Cli.docker data ∧ Docker.version d = Some (Cli.c_version row).
Proof.
  intros Hstat. destruct cursor_row_entry as (x & _ & Hv & _ & Hs & _).
  rewrite Hstat in Hs. unfold Cli.stat_of, Cli.has_d_of, Cli.v_of in Hs.
  rewrite Hv in Hs. simpl in Hs. apply docker_map_is_Some.
  case_bool_decide; [done|]. simpl in Hs.
  by destruct (String.eqb (Cli.t_of x) "Desktop").
Qed.

Lemma type_mobile_status :
  Cli.c_type row = "Mobile" → Cli.c_status row = "N/A".
Proof.
  intros Ht. destruct cursor_row_entry as (x & _ & _ & _ & -> & Hty).
  rewrite Ht in Hty. unfold Cli.stat_of, Cli.has_d_of, Cli.t_of.
  destruct (Rss.type x) as [t|]; simpl in *; [|by vm_compute in Hty].
  destruct (String.eqb_spec t "Desktop") as [->|_]; [by vm_compute in Hty|].
  by rewrite andb_false_r.
Qed.
End submit_facts.

Lemma mode_of_notify self msg : Cli.mode_of (Cli.notify self msg) = Cli.mode_of self.
Proof. done. Qed.

Lemma mode_of_push_confirm self v d :
  Cli.result self = None →
  Cli.mode_of (Cli.push_screen self (Cli.ConfirmScreen v d)) = Cli.Confirming.
Proof. unfold Cli.mode_of. simpl. by intros ->. Qed.

(** C6. With the table showing the loaded data, submitting on a row
    whose status is ["Missing"] raises the notice and changes nothing
    else: the screen stack and the mode stay as they were, so the
    confirmation dialog is not opened. Submitting on a row for whose
    version a tag record exists, as for every row with status
    ["Found"], pushes the confirmation screen: the mode becomes
    [Confirming]. *)
Theorem submit_missing_rejected (self : Cli.app) (data : Cli.raw) (row : Cli.row) :
  Cli.raw_data self = Some data →
  Cli.well_formed data = true →
  Cli.table self = Cli.rows self data →
  Cli.table self !! Cli.cursor_row self = Some row →
  Cli.result self = None →
  (Cli.c_status row = "Missing" →
   ∃ self',
     Cli.action_submit self = Cli.Ok self'
     ∧ self' = Cli.notify self ("No Docker tag for v" +:+ Cli.c_version row)
     ∧ Cli.screen_stack self' = Cli.screen_stack self
     ∧ Cli.mode_of self' = Cli.mode_of self)
  ∧ ((Cli.c_status row = "Found"
      ∨ ∃ d, d ∈ Cli.docker data ∧ Docker.version d = Some (Cli.c_version row)) →
     ∃ self' choice,
       Cli.action_submit self = Cli.Ok self'
       ∧ self' = Cli.push_screen self (Cli.ConfirmScreen (Cli.c_version row) choice)
       ∧ choice ∈ Cli.docker data
       ∧ Docker.version choice = Some (Cli.c_version row)
       ∧ Cli.mode_of self' = Cli.Confirming).
Proof.
  intros Hraw Hwf Htable Hrow Hres. split.
  - intros Hstat. eexists. split; [by eapply submit_missing|]. done.
  - intros Htag.
    assert (∃ d, d ∈ Cli.docker data ∧ Docker.version d = Some (Cli.c_version row))
      as (d & Hd & Hv).
    { destruct Htag as [Hfound|?]; [|done]. by eapply status_found_tagged. }
    destruct (submit_tagged _ _ _ Hraw Hwf Htable Hrow d Hd Hv) as (c & ? & ? & ?).
    exists (Cli.push_screen self (Cli.ConfirmScreen (Cli.c_version row) c)), c.
    split_and!; [done..|]. by apply mode_of_push_confirm.
Qed.

Lemma submit_missing_rejected_witness :
  let e v t := Rss.Entry (Some v) (Some t) "2023-12-20T10:00:00" (Some "25.8.1")
                 (Some ("Obsidian " +:+ t +:+ " " +:+ v)) in
  let data := Cli.Raw [e "1.5.3" "Desktop"; e "1.4.16" "Desktop"]
                [Docker.TagRecord (Some "1.4.16") "version-1.4.16" (Some "2023-10-01")] ∅ in
  let self := Cli.handle_data_loaded Cli.init data in
  let down := Cli.set_table self (Cli.table self) 1 in
  (Cli.c_status <$> Cli.table self = ["Found"; "Missing"])
  ∧ Cli.action_submit down = Cli.Ok (Cli.notify down "No Docker tag for v1.5.3")
  ∧ ∃ choice,
      Cli.action_submit self = Cli.Ok (Cli.push_screen self (Cli.ConfirmScreen "1.4.16" choice))
      ∧ Docker.tag choice = "version-1.4.16".
Proof.
  intros e data self down. split; [reflexivity|]. split.
  - pose proof (submit_missing_rejected down data
                  (Cli.Row "1" "1.5.3" "Desktop" "2023-12-20" "Missing" "v25.8.1" "---")
                  eq_refl eq_refl eq_refl eq_refl eq_refl) as [H _].
    destruct (H eq_refl) as (self' & -> & -> & _). reflexivity.
  - pose proof (submit_missing_rejected self data
                  (Cli.Row "0" "1.4.16" "Desktop" "2023-12-20" "Found" "v25.8.1" "---")
                  eq_refl eq_refl eq_refl eq_refl eq_refl) as [_ H].
    destruct (H (or_introl eq_refl)) as (self' & choice & -> & -> & Hin & Hv & _).
    exists choice. split; [reflexivity|].
    apply list_elem_of_In in Hin. simpl in Hin. by destruct Hin as [<-|[]].
Defined.

(** C9. [action_submit] looks the version of the row up in the tag
    map and at nothing else. A ["Mobile"] row, whose status is
    ["N/A"], is accepted as soon as some tag record has its version:
    the confirmation screen is pushed and the mode becomes
    [Confirming]. *)
Theorem submit_ignores_platform (self : Cli.app) (data : Cli.raw) (row : Cli.row)
    (d : Docker.tag_record) :
  Cli.raw_data self = Some data →
  Cli.well_formed data = true →
  Cli.table self = Cli.rows self data →
  Cli.table self !! Cli.cursor_row self = Some row →
  Cli.result self = None →
  Cli.c_type row = "Mobile" →
  d ∈ Cli.docker data →
  Docker.version d = Some (Cli.c_version row) →
  Cli.c_status row = "N/A"
  ∧ ∃ self' choice,
      Cli.action_submit self = Cli.Ok self'
      ∧ self' = Cli.push_screen self (Cli.ConfirmScreen (Cli.c_version row) choice)
      ∧ choice ∈ Cli.docker data
      ∧ Docker.version choice = Some (Cli.c_version row)
      ∧ Cli.mode_of self' = Cli.Confirming.
Proof.
  intros Hraw Hwf Htable Hrow Hres Hty Hd Hv. split.
  - by eapply type_mobile_status.
  - destruct (submit_tagged _ _ _ Hraw Hwf Htable Hrow d Hd Hv) as (c & ? & ? & ?).
    exists (Cli.push_screen self (Cli.ConfirmScreen (Cli.c_version row) c)), c.
    split_and!; [done..|]. by apply mode_of_push_confirm.
Qed.

Lemma submit_ignores_platform_witness :
  let data := Cli.Raw [Rss.Entry (Some "1.4.16") (Some "Mobile") "2023-10-05T09:00:00"
                         (Some "25.8.1") (Some "Obsidian Mobile 1.4.16")]
                [Docker.TagRecord (Some "1.4.16") "version-1.4.16" (Some "2023-10-01")] ∅ in
  let self := Cli.handle_data_loaded Cli.init data in
  Cli.c_status <$> Cli.table self = ["N/A"]
  ∧ Cli.action_submit self =
    Cli.Ok (Cli.push_screen self
              (Cli.ConfirmScreen "1.4.16"
                 (Docker.TagRecord (Some "1.4.16") "version-1.4.16" (Some "2023-10-01")))).
Proof.
  intros data self. split; [reflexivity|].
  pose proof (submit_ignores_platform self data
                (Cli.Row "0" "1.4.16" "Mobile" "2023-10-05" "N/A" "v25.8.1" "---")
                (Docker.TagRecord (Some "1.4.16") "version-1.4.16" (Some "2023-10-01"))
                eq_refl eq_refl eq_refl eq_refl eq_refl eq_refl) as H.
  destruct H as [_ (self' & choice & -> & -> & Hin & _)]; [by left|reflexivity|].
  apply list_elem_of_In in Hin. simpl in Hin. by destruct Hin as [<-|[]].
Defined.

(** ** Jumping between matches *)

Section scan_facts.
Context (t : list Cli.row) (c count : Z) (q : string) (d : Z).
Implicit Types (range : list Z) (i k : Z).

Lemma scan_None range :
  (∀ i, i ∈ range → Cli.hit t q (Cli.idx_of c count d i) = false) →
  Cli.scan t c count q d range = None.
Proof.
  induction range as [|i range IH]; intros Hmiss; simpl; [done|].
  rewrite Hmiss by (by left). apply IH. intros j Hj. apply Hmiss. by right.
Qed.

Lemma scan_first r1 k r2 :
  (∀ i, i ∈ r1 → Cli.hit t q (Cli.idx_of c count d i) = false) →
  Cli.hit t q (Cli.idx_of c count d k) = true →
  Cli.scan t c count q d (r1 ++ k :: r2) = Some (Cli.idx_of c count d k).
Proof.
  induction r1 as [|i r1 IH]; intros Hmiss Hk; simpl; [by rewrite Hk|].
  rewrite Hmiss by (by left). apply IH; [|done]. intros j Hj. apply Hmiss. by right.
Qed.

Lemma hit_no_match idx :
  (∀ r, r ∈ t → Py.contains q (Cli.row_text r) = false) → Cli.hit t q idx = false.
Proof.
  intros Hno. unfold Cli.hit. destruct (t !! idx) as [r|] eqn:E; [|done].
  simpl. apply Hno. by eapply list_elem_of_lookup_2.
Qed.
End scan_facts.

Lemma range_split (n k : Z) :
  1 ≤ k < n → seqZ 1 (n - 1) = seqZ 1 (k - 1) ++ k :: seqZ (k + 1) (n - 1 - k).
Proof.
  intros Hk. replace (n - 1) with ((k - 1) + (n - k)) by lia.
  rewrite seqZ_app by lia. f_equal.
  rewrite seqZ_cons by lia. f_equal; [lia|]. f_equal; lia.
Qed.

(** C7. [jump_to_match] does nothing when the query is empty or no
    row of the table contains it. Otherwise it looks at the rows
    [cursor + d], [cursor + 2d], ... modulo the number of rows ([d] is
    1 for next and -1 for previous), up to but not including the
    cursor row itself, and moves the cursor to the first of them whose
    text contains the lower-cased query; when none of them does the
    cursor stays. With three rows of which only the last matches and
    the cursor on the first, next-match moves to the last row and a
    second next-match leaves the cursor there. *)
Theorem jump_to_match_wraps :
  (∀ self d, Cli.search_query self = "" → Cli.jump_to_match self d = self)
  ∧ (∀ self d,
       (∀ r, r ∈ Cli.table self →
             Py.contains (Py.lower (Cli.search_query self)) (Cli.row_text r) = false) →
       Cli.jump_to_match self d = self)
  ∧ (∀ self d,
       let t := Cli.table self in
       let n := Z.of_nat (length t) in
       let c := Z.of_nat (Cli.cursor_row self) in
       let q := Py.lower (Cli.search_query self) in
       Cli.search_query self ≠ "" →
       (∀ k, 1 ≤ k < n →
             Cli.hit t q (Z.to_nat ((c + k * d) `mod` n)) = true →
             (∀ j, 1 ≤ j < k → Cli.hit t q (Z.to_nat ((c + j * d) `mod` n)) = false) →
             Cli.jump_to_match self d
             = Cli.set_table self t (Z.to_nat ((c + k * d) `mod` n)))
       ∧ ((∀ j, 1 ≤ j < n → Cli.hit t q (Z.to_nat ((c + j * d) `mod` n)) = false) →
          Cli.jump_to_match self d = self))
  ∧ (∀ self r0 r1 r2,
       let q := Py.lower (Cli.search_query self) in
       Cli.search_query self ≠ "" →
       Cli.table self = [r0; r1; r2] →
       Cli.cursor_row self = 0%nat →
       Py.contains q (Cli.row_text r0) = false →
       Py.contains q (Cli.row_text r1) = false →
       Py.contains q (Cli.row_text r2) = true →
       Cli.cursor_row (Cli.action_next_match self) = 2%nat
       ∧ Cli.action_next_match (Cli.action_next_match self) = Cli.action_next_match self)
  ∧ (let e v dt el := Rss.Entry (Some v) (Some "Desktop") dt (Some el)
                        (Some ("Obsidian Desktop " +:+ v)) in
     let data := Cli.Raw [e "1.2.0" "2024-03-01T10:00:00Z" "28.2.3";
                          e "1.1.0" "2024-02-01T10:00:00Z" "27.1.2";
                          e "1.0.3" "2024-01-01T09:15:42Z" "18.0.0"] []
                   {["18.0.0" := "100.0.4896.60"]} in
     let self := Cli.on_input_changed
                   (Cli.action_toggle_search (Cli.handle_data_loaded Cli.init data)) "00" in
     Cli.hit (Cli.table self) "00" <$> [0; 1; 2]%nat = [false; false; true]
     ∧ Cli.cursor_row self = 0%nat
     ∧ Cli.cursor_row (Cli.action_next_match self) = 2%nat
     ∧ Cli.cursor_row (Cli.action_next_match (Cli.action_next_match self)) = 2%nat
     ∧ Cli.cursor_row (Cli.action_prev_match self) = 2%nat).
Proof.
  split_and!.
  - intros self d Hq. unfold Cli.jump_to_match. by rewrite Hq.
  - intros self d Hno. unfold Cli.jump_to_match.
    destruct (String.eqb _ ""); [done|].
    rewrite scan_None; [done|]. intros i _. by apply hit_no_match.
  - intros self d t n c q Hq. apply String.eqb_neq in Hq. split.
    + intros k Hk Hhit Hmiss. unfold Cli.jump_to_match. rewrite Hq.
      fold t n c q. rewrite (range_split n k Hk).
      rewrite scan_first; [done| |done].
      intros j Hj%elem_of_seqZ. apply Hmiss. lia.
    + intros Hmiss. unfold Cli.jump_to_match. rewrite Hq.
      fold t n c q. rewrite scan_None; [done|].
      intros j Hj%elem_of_seqZ. apply Hmiss. lia.
  - intros self r0 r1 r2 q Hq Ht Hc H0 H1 H2. apply String.eqb_neq in Hq.
    assert (Cli.action_next_match self = Cli.set_table self [r0; r1; r2] 2) as Hnext.
    { unfold Cli.action_next_match, Cli.jump_to_match. rewrite Hq, Ht, Hc. fold q.
      change (seqZ 1 _) with ([1] ++ 2 :: []).
      rewrite scan_first; [done| |exact H2].
      intros i ->%list_elem_of_singleton. exact H1. }
    rewrite Hnext. split; [done|].
    unfold Cli.action_next_match, Cli.jump_to_match.
    change (Cli.search_query (Cli.set_table self [r0; r1; r2] 2))
      with (Cli.search_query self).
    rewrite Hq. fold q. rewrite scan_None; [done|].
    change (seqZ 1 _) with [1; 2].
    intros i [->|[->|[]%elem_of_nil]%elem_of_cons]%elem_of_cons; [exact H0|exact H1].
  - by vm_compute.
Qed.

Lemma jump_to_match_wraps_witness :
  let e v dt el := Rss.Entry (Some v) (Some "Desktop") dt (Some el)
                     (Some ("Obsidian Desktop " +:+ v)) in
  let data := Cli.Raw [e "1.2.0" "2024-03-01T10:00:00Z" "28.2.3";
                       e "1.1.0" "2024-02-01T10:00:00Z" "27.1.2";
                       e "1.0.3" "2024-01-01T09:15:42Z" "18.0.0"] []
                {["18.0.0" := "100.0.4896.60"]} in
  let self := Cli.on_input_changed
                (Cli.action_toggle_search (Cli.handle_data_loaded Cli.init data)) "00" in
  Cli.jump_to_match self 1 = Cli.set_table self (Cli.table self) 2
  ∧ Cli.jump_to_match self (-1) = Cli.set_table self (Cli.table self) 2
  ∧ Cli.jump_to_match (Cli.set_table self (Cli.table self) 2) 1
    = Cli.set_table self (Cli.table self) 2.
Proof.
  intros e data self.
  destruct jump_to_match_wraps as (_ & _ & H & _).
  split_and!.
  - destruct (H self 1) as [Hfirst _]; [done|].
    apply (Hfirst 2); [done|reflexivity|].
    intros j Hj. assert (j = 1) as -> by (clear -Hj; lia). reflexivity.
  - destruct (H self (-1)) as [Hfirst _]; [done|].
    apply (Hfirst 1); [done|reflexivity|]. intros j Hj. clear -Hj. lia.
  - destruct (H (Cli.set_table self (Cli.table self) 2) 1) as [_ Hnone]; [done|].
    apply Hnone. intros j Hj.
    change (Z.of_nat _) with 3 in Hj.
    assert (j = 1 ∨ j = 2) as [-> | ->] by (clear -Hj; lia); reflexivity.
Defined.

(** ** Writing the snapshot *)

Section cache_facts.
Implicit Types (s : string) (chunks : list string).

Lemma append_empty_r s : s +:+ "" = s.
Proof.
  induction s as [|c s IH]; [done|].
  change (String c (s +:+ "") = String c s). by rewrite IH.
Qed.

Lemma append_assoc s1 s2 s3 : (s1 +:+ s2) +:+ s3 = s1 +:+ (s2 +:+ s3).
Proof.
  induction s1 as [|c s1 IH]; [done|].
  change (String c ((s1 +:+ s2) +:+ s3) = String c (s1 +:+ (s2 +:+ s3))). by rewrite IH.
Qed.

Lemma run_appends s chunks :
  Cache.run (Cache.Append <$> chunks) (Some s) = Some (s +:+ Cache.text chunks).
Proof.
  unfold Cache.run, Cache.text.
  revert s. induction chunks as [|c chunks IH]; intros s; simpl.
  - by rewrite append_empty_r.
  - rewrite IH. by rewrite append_assoc.
Qed.

Lemma interrupted_write n chunks old :
  Cache.interrupted (S n) (Cache.write_text chunks) old
  = Some (Cache.text (take n chunks)).
Proof.
  unfold Cache.interrupted, Cache.write_text.
  rewrite firstn_cons, <- fmap_take.
  change (Cache.run (Cache.Truncate :: ?l) old) with (Cache.run l (Some "")).
  by rewrite run_appends.
Qed.
End cache_facts.

(** C8, as stated, at the old snapshot ["[1, 2]"] and the new one
    ["[1, 2, 3]"]: when the write stops after its first step, the file
    of each of the three adapters is empty, which is neither the old
    snapshot nor the new one. *)
Lemma snapshot_interrupted_counterexample :
  let old := Some "[1, 2]" in
  let new := ["[1, 2, 3]"] in
  Cache.interrupted 1 (Cache.rss_snapshot new) old = Some ""
  ∧ Cache.interrupted 1 (Cache.docker_snapshot false new) old = Some ""
  ∧ Cache.interrupted 1 (Cache.electron_snapshot new) old = Some ""
  ∧ Some "" ≠ old
  ∧ Some "" ≠ Some (Cache.text new).
Proof. by vm_compute. Qed.

(** C8, amended. On a successful fetch the changelog and engine-map
    adapters, and the registry adapter when it found a tag, write the
    snapshot in place: the file is emptied and the text is then written
    into it. A write that stops before its first step leaves the old
    file; one that stops later leaves the part of the new text written
    so far, the old snapshot being gone; only a write that is not
    interrupted leaves the complete new snapshot. With an empty tag
    list the registry adapter writes nothing. *)
Theorem snapshot_written_in_place (dumps : list string) (old : Cache.file) :
  (∀ ops,
     ops = Cache.rss_snapshot dumps ∨ ops = Cache.electron_snapshot dumps
     ∨ ops = Cache.docker_snapshot false dumps →
     Cache.interrupted 0 ops old = old
     ∧ (∀ n, Cache.interrupted (S n) ops old = Some (Cache.text (take n dumps)))
     ∧ (∀ n, (length dumps < n)%nat →
           Cache.interrupted n ops old = Some (Cache.text dumps))
     ∧ Cache.run ops old = Some (Cache.text dumps))
  ∧ (∀ n, Cache.interrupted n (Cache.docker_snapshot true dumps) old = old).
Proof.
  split.
  - intros ops Hops.
    assert (ops = Cache.write_text dumps) as -> by (by destruct Hops as [->|[->| ->]]).
    split_and!.
    + done.
    + intros n. apply interrupted_write.
    + intros [|n] Hn; [lia|]. rewrite interrupted_write, take_ge; [done|lia].
    + unfold Cache.write_text.
      change (Cache.run (Cache.Truncate :: ?l) old) with (Cache.run l (Some "")).
      by rewrite run_appends.
  - intros n. unfold Cache.interrupted. simpl. by rewrite take_nil.
Qed.

Lemma snapshot_written_in_place_witness :
  Cache.interrupted 2 (Cache.rss_snapshot ["[1, 2"; ", 3]"]) (Some "[1, 2]") = Some "[1, 2"
  ∧ Cache.interrupted 4 (Cache.electron_snapshot ["[1, 2"; ", 3]"]) (Some "[1, 2]")
    = Some "[1, 2, 3]".
Proof.
  split.
  - destruct (snapshot_written_in_place ["[1, 2"; ", 3]"] (Some "[1, 2]")) as [H _].
    destruct (H (Cache.rss_snapshot ["[1, 2"; ", 3]"])) as (_ & Hpart & _); [by left|].
    apply (Hpart 1%nat).
  - destruct (snapshot_written_in_place ["[1, 2"; ", 3]"] (Some "[1, 2]")) as [H _].
    destruct (H (Cache.electron_snapshot ["[1, 2"; ", 3]"])) as (_ & _ & Hall & _);
      [by right; left|].
    apply Hall. simpl. lia.
Defined.

(** * Further properties of the code *)

(** ** The table depends on the flags and the lower-cased query only *)

Section table_ext.
Context (s1 s2 : Cli.app).
Hypothesis Hm : Cli.show_mobile s1 = Cli.show_mobile s2.
Hypothesis He : Cli.show_early_access s1 = Cli.show_early_access s2.
Hypothesis Hf : Cli.found_only s1 = Cli.found_only s2.
Hypothesis Hp : Cli.sort_by_priority s1 = Cli.sort_by_priority s2.
Hypothesis Hq : Py.lower (Cli.search_query s1) = Py.lower (Cli.search_query s2).

Lemma query_empty_ext :
  String.eqb (Cli.search_query s1) "" = String.eqb (Cli.search_query s2) "".
Proof.
  destruct (Cli.search_query s1) as [|a q1], (Cli.search_query s2) as [|b q2];
    simpl in *; done.
Qed.

Lemma collect_ext dm em seen l :
  Cli.collect s1 dm em seen l = Cli.collect s2 dm em seen l.
Proof.
  revert seen. induction l as [|x l IH]; intros seen; [done|].
  rewrite !collect_cons.
  assert (Cli.passes s1 dm em x = Cli.passes s2 dm em x) as ->.
  { unfold Cli.passes, Cli.filtered_out, Cli.query_miss.
    by rewrite Hm, He, Hf, Hq, query_empty_ext. }
  by rewrite !IH.
Qed.

Lemma sort_key_ext it : Cli.sort_key s1 it = Cli.sort_key s2 it.
Proof. unfold Cli.sort_key. by rewrite Hp. Qed.

Lemma visible_ext data : Cli.visible s1 data = Cli.visible s2 data.
Proof.
  unfold Cli.visible. rewrite collect_ext.
  generalize (Cli.collect s2 (Cli.docker_map (Cli.docker data)) (Cli.electron data)
                ∅ (Cli.rss data)).
  intros l. induction l as [|x l IH]; simpl; [done|]. rewrite IH.
  generalize (Py.sorted Cli.key_lt (Cli.sort_key s2) l). intros k.
  induction k as [|y k IHk]; simpl; [done|].
  by rewrite !sort_key_ext, IHk.
Qed.

Lemma rows_ext data : Cli.rows s1 data = Cli.rows s2 data.
Proof. unfold Cli.rows. by rewrite visible_ext. Qed.
End table_ext.

(** ** Toggling the filters and the sort mode *)

Ltac table_eq :=
  unfold Cli.action_toggle_mobile, Cli.action_toggle_early, Cli.action_toggle_found,
    Cli.action_toggle_sort, Cli.on_input_changed, Cli.action_cancel_search,
    Cli.update_table, Cli.set_flags, Cli.set_table, Cli.set_search_visible;
  simpl; rewrite ?negb_involutive;
  try (f_equal; apply rows_ext; simpl; rewrite ?negb_involutive; done).

(** The four toggles commute with each other, and toggling the same
    flag twice gives the table a plain [update_table] gives: what is
    shown depends on the values of the flags, not on the order in which
    they were set. *)
Theorem toggles_commute (self : Cli.app) :
  Cli.action_toggle_mobile (Cli.action_toggle_found self)
  = Cli.action_toggle_found (Cli.action_toggle_mobile self)
  ∧ Cli.action_toggle_mobile (Cli.action_toggle_early self)
    = Cli.action_toggle_early (Cli.action_toggle_mobile self)
  ∧ Cli.action_toggle_mobile (Cli.action_toggle_sort self)
    = Cli.action_toggle_sort (Cli.action_toggle_mobile self)
  ∧ Cli.action_toggle_early (Cli.action_toggle_found self)
    = Cli.action_toggle_found (Cli.action_toggle_early self)
  ∧ Cli.action_toggle_early (Cli.action_toggle_sort self)
    = Cli.action_toggle_sort (Cli.action_toggle_early self)
  ∧ Cli.action_toggle_found (Cli.action_toggle_sort self)
    = Cli.action_toggle_sort (Cli.action_toggle_found self)
  ∧ Cli.action_toggle_mobile (Cli.action_toggle_mobile self) = Cli.update_table self
  ∧ Cli.action_toggle_early (Cli.action_toggle_early self) = Cli.update_table self
  ∧ Cli.action_toggle_found (Cli.action_toggle_found self) = Cli.update_table self
  ∧ Cli.action_toggle_sort (Cli.action_toggle_sort self) = Cli.update_table self.
Proof.
  destruct self as [[data|] q m e f p t c sv st n res]; split_and!; by table_eq.
Qed.

(** ** The search query *)

Lemma lower_lower s : Py.lower (Py.lower s) = Py.lower s.
Proof.
  induction s as [|c s IH]; simpl; [done|]. rewrite IH. f_equal.
  unfold Py.lower_char.
  destruct (((65 <=? nat_of_ascii c)%nat && (nat_of_ascii c <=? 90)%nat)) eqn:E; [|by rewrite E].
  apply andb_prop in E as [Hlo%Nat.leb_le Hhi%Nat.leb_le].
  rewrite nat_ascii_embedding by lia.
  replace (65 <=? nat_of_ascii c + 32)%nat with true by (symmetry; apply Nat.leb_le; lia).
  replace (nat_of_ascii c + 32 <=? 90)%nat with false by (symmetry; apply Nat.leb_gt; lia).
  done.
Qed.

(** The query is matched without regard to its case: two queries with
    the same lower-case form give the same table, and a query gives the
    table its lower-case form gives. Leaving the search mode forgets
    the query whatever was typed before: the state is the one reached
    by leaving it at once. *)
Theorem query_case_and_cancel (self : Cli.app) :
  (∀ q1 q2,
     Py.lower q1 = Py.lower q2 →
     Cli.table (Cli.on_input_changed self q1) = Cli.table (Cli.on_input_changed self q2)
     ∧ Cli.cursor_row (Cli.on_input_changed self q1)
       = Cli.cursor_row (Cli.on_input_changed self q2))
  ∧ (∀ q, Cli.table (Cli.on_input_changed self (Py.lower q))
          = Cli.table (Cli.on_input_changed self q))
  ∧ (∀ q, Cli.action_cancel_search (Cli.on_input_changed self q)
          = Cli.action_cancel_search self)
  ∧ Cli.search_query (Cli.action_cancel_search self) = ""
  ∧ Cli.search_visible (Cli.action_cancel_search self) = false.
Proof.
  assert (∀ q1 q2, Py.lower q1 = Py.lower q2 →
            Cli.table (Cli.on_input_changed self q1)
            = Cli.table (Cli.on_input_changed self q2)
            ∧ Cli.cursor_row (Cli.on_input_changed self q1)
              = Cli.cursor_row (Cli.on_input_changed self q2)) as Hcase.
  { intros q1 q2 Hq. destruct self as [[data|] q m e f p t c sv st n res];
      unfold Cli.on_input_changed, Cli.update_table, Cli.set_flags, Cli.set_table; simpl;
      [|done]. split; [|done]. by apply rows_ext. }
  split_and!.
  - done.
  - intros q. apply Hcase. apply lower_lower.
  - intros q. destruct self as [[data|] q0 m e f p t c sv st n res]; by table_eq.
  - by destruct self as [[data|] q0 m e f p t c sv st n res].
  - by destruct self as [[data|] q0 m e f p t c sv st n res].
Qed.

Lemma query_case_and_cancel_witness :
  let e v := Rss.Entry (Some v) (Some "Desktop") "2024-03-01T10:00:00Z" (Some "28.2.3")
               (Some ("Obsidian Desktop " +:+ v)) in
  let self := Cli.handle_data_loaded Cli.init (Cli.Raw [e "1.2.0"; e "1.1.0"] [] ∅) in
  Cli.table (Cli.on_input_changed self "DESKTOP") = Cli.table (Cli.on_input_changed self "desktop").
Proof.
  intros e self. destruct (query_case_and_cancel self) as [H _].
  apply (H "DESKTOP" "desktop"). reflexivity.
Defined.

(** ** What the table shows, and in which order *)

Lemma StronglySorted_lookup {A} (R : relation A) (l : list A) (i j : nat) (x y : A) :
  StronglySorted R l → (i < j)%nat → l !! i = Some x → l !! j = Some y → R x y.
Proof.
  intros Hs. revert i j. induction Hs as [|a l Hs IH Hall]; intros i j Hij Hi Hj.
  - by rewrite lookup_nil in Hi.
  - destruct j as [|j]; [lia|]. simpl in Hj. destruct i as [|i]; simpl in Hi.
    + injection Hi as ->. rewrite Forall_forall in Hall. apply Hall.
      by eapply list_elem_of_lookup_2.
    + apply (IH i j); [lia|done..].
Qed.

Section covers.
Context (self : Cli.app) (dm : gmap string Docker.tag_record) (em : gmap string string).

(** The key of every entry that gets past the filters is seen or
    collected. *)
Lemma collect_covers seen l x :
  x ∈ l → Cli.passes self dm em x = true →
  Cli.seen_key x ∈ seen
  ∨ ∃ it, it ∈ Cli.collect self dm em seen l
          ∧ Cli.seen_key (Cli.i_rss it) = Cli.seen_key x.
Proof.
  revert seen. induction l as [|y l IH]; intros seen Hin Hx; [by apply elem_of_nil in Hin|].
  rewrite collect_cons. apply elem_of_cons in Hin as [->|Hin].
  - rewrite Hx. simpl. case_bool_decide; simpl; [by left|].
    right. exists (Cli.mk_item dm em y). split; [by left|done].
  - destruct (Cli.passes self dm em y && negb (bool_decide (Cli.seen_key y ∈ seen))).
    + destruct (IH ({[Cli.seen_key y]} ∪ seen) Hin Hx) as [Hs|(it & ? & ?)].
      * apply elem_of_union in Hs as [->%elem_of_singleton|?]; [|by left].
        right. exists (Cli.mk_item dm em y). split; [by left|done].
      * right. exists it. split; [by right|done].
    + by apply IH.
Qed.
End covers.

(** The rows shown obey the filters: with mobile hidden no row is a
    Mobile row, with early access hidden no row is an early-access
    entry, in found-only mode every row has status Found, and with a
    query every row's searchable text contains it in lower case.
    Nothing else is held back: every entry that gets past the filters
    has a row with its key, so with the flags [__init__] sets and no
    query every entry of the changelog has one. *)
Theorem visible_respects_filters (self : Cli.app) (data : Cli.raw) :
  let dm := Cli.docker_map (Cli.docker data) in
  let em := Cli.electron data in
  (∀ it,
     it ∈ Cli.visible self data →
     (Cli.show_mobile self = false → Cli.t_of (Cli.i_rss it) ≠ "Mobile")
     ∧ (Cli.show_early_access self = false → Cli.is_early (Cli.i_rss it) = false)
     ∧ (Cli.found_only self = true → Cli.stat it = "Found")
     ∧ (Cli.search_query self ≠ "" →
        Py.contains (Py.lower (Cli.search_query self))
                    (Cli.searchable_text dm em (Cli.i_rss it)) = true))
  ∧ (∀ x,
       x ∈ Cli.rss data → Cli.passes self dm em x = true →
       ∃ it, it ∈ Cli.visible self data
             ∧ Cli.seen_key (Cli.i_rss it) = Cli.seen_key x)
  ∧ (Cli.show_mobile self = true → Cli.show_early_access self = true →
     Cli.found_only self = false → Cli.search_query self = "" →
     ∀ x, x ∈ Cli.rss data →
          ∃ it, it ∈ Cli.visible self data
                ∧ Cli.seen_key (Cli.i_rss it) = Cli.seen_key x).
Proof.
  intros dm em.
  assert (∀ x, x ∈ Cli.rss data → Cli.passes self dm em x = true →
            ∃ it, it ∈ Cli.visible self data
                  ∧ Cli.seen_key (Cli.i_rss it) = Cli.seen_key x) as Hcover.
  { intros x Hin Hx. unfold Cli.visible.
    destruct (collect_covers self dm em ∅ _ x Hin Hx) as [[]%elem_of_empty|(it & ? & ?)].
    exists it. split; [by apply elem_of_sorted|done]. }
  split_and!.
  - intros it (_ & Hit & Hp)%visible_item. fold dm em in Hit, Hp.
    unfold Cli.passes, Cli.filtered_out, Cli.query_miss in Hp.
    apply andb_prop in Hp as [Hfo%negb_true_iff Hqm%negb_true_iff].
    apply orb_false_elim in Hfo as [[Hmob Hearly]%orb_false_elim Hfound].
    split_and!.
    + intros Hm Ht. rewrite Hm, Ht in Hmob. done.
    + intros He. by rewrite He in Hearly.
    + intros Hf. rewrite Hf in Hfound. simpl in Hfound.
      apply negb_false_iff in Hfound. rewrite Hit. unfold Cli.mk_item, Cli.stat_of. simpl.
      by rewrite Hfound.
    + intros Hq%String.eqb_neq. rewrite Hq in Hqm. simpl in Hqm.
      by apply negb_false_iff in Hqm.
  - done.
  - intros Hm He Hf Hq x Hin. apply Hcover; [done|].
    unfold Cli.passes, Cli.filtered_out, Cli.query_miss. by rewrite Hm, He, Hf, Hq.
Qed.

Lemma visible_respects_filters_witness :
  let e v t := Rss.Entry (Some v) (Some t) "2024-03-01T10:00:00Z" (Some "28.2.3")
                 (Some ("Obsidian " +:+ t +:+ " " +:+ v)) in
  let data := Cli.Raw [e "1.2.0" "Desktop"; e "1.2.0" "Mobile"]
                [Docker.TagRecord (Some "1.2.0") "version-1.2.0" None] ∅ in
  let self := Cli.App (Some data) "" true true true true [] 0 false [] [] None in
  Cli.stat (Cli.mk_item (Cli.docker_map (Cli.docker data)) ∅ (e "1.2.0" "Desktop")) = "Found".
Proof.
  intros e data self. destruct (visible_respects_filters self data) as [H _].
  destruct (H (Cli.mk_item (Cli.docker_map (Cli.docker data)) ∅ (e "1.2.0" "Desktop")))
    as (_ & _ & Hfound & _).
  - apply list_elem_of_In. vm_compute. by left.
  - by apply Hfound.
Defined.

Section table_order.
Context (self : Cli.app).

Lemma key_lt_asym k1 k2 : Cli.key_lt k1 k2 = true → Cli.key_lt k2 k1 = false.
Proof.
  destruct k1 as [[p x]|x], k2 as [[q y]|y]; simpl; try done.
  - destruct (Z.eqb_spec p q) as [->|Hne].
    + rewrite Z.eqb_refl. apply list_lt_asym.
    + intros Hlt%Z.ltb_lt. destruct (Z.eqb_spec q p); [lia|]. apply Z.ltb_ge. lia.
  - apply list_lt_asym.
Qed.

Lemma sort_key_not_after_trans :
  Transitive (Py.not_after Cli.key_lt (Cli.sort_key self)).
Proof.
  intros a b c. unfold Py.not_after, Cli.sort_key.
  destruct (Cli.sort_by_priority self); simpl.
  - generalize (Cli.prio a) (Cli.prio b) (Cli.prio c). intros p q r.
    set (x := Version.neg_parts _). set (y := Version.neg_parts _).
    set (z := Version.neg_parts _).
    destruct (Z.eqb_spec q p), (Z.eqb_spec r q), (Z.eqb_spec r p);
      rewrite ?Z.ltb_ge; try lia; try done.
    intros H1 H2. exact (list_le_trans _ _ _ H1 H2).
  - intros H1 H2. exact (list_le_trans _ _ _ H1 H2).
Qed.

Lemma visible_StronglySorted data :
  StronglySorted (Py.not_after Cli.key_lt (Cli.sort_key self)) (Cli.visible self data).
Proof.
  apply Sorted_StronglySorted; [apply sort_key_not_after_trans|].
  apply sorted_Sorted, key_lt_asym.
Qed.
End table_order.

(** The table is in the order of the sort key: a row never stands
    above a row whose key is smaller. In priority mode the rows with a
    tag come first, then the Mobile rows, then the rest, so no row
    without a tag stands above a Found row; in both modes a row's
    version is never below, in the version order, that of a row of the
    same group above it. *)
Theorem table_in_key_order (self : Cli.app) (data : Cli.raw) (i j : nat)
    (x y : Cli.item) :
  (i < j)%nat →
  Cli.visible self data !! i = Some x →
  Cli.visible self data !! j = Some y →
  let vx := default "0.0.0" (Rss.version (Cli.i_rss x)) in
  let vy := default "0.0.0" (Rss.version (Cli.i_rss y)) in
  Cli.key_lt (Cli.sort_key self y) (Cli.sort_key self x) = false
  ∧ (Cli.sort_by_priority self = true →
     Cli.prio x ≤ Cli.prio y
     ∧ (Cli.has_d y = true → Cli.has_d x = true)
     ∧ (Cli.prio x = Cli.prio y → Version.above vy vx = false))
  ∧ (Cli.sort_by_priority self = false → Version.above vy vx = false).
Proof.
  intros Hij Hx Hy vx vy.
  pose proof (StronglySorted_lookup _ _ _ _ _ _ (visible_StronglySorted self data)
                Hij Hx Hy) as Hxy.
  unfold Py.not_after in Hxy. split; [done|].
  unfold Cli.sort_key in Hxy. split; intros Hp; rewrite Hp in Hxy; simpl in Hxy.
  - fold vx vy in Hxy. destruct (Z.eqb_spec (Cli.prio y) (Cli.prio x)) as [Heq|Hne].
    + split_and!; [lia| |done]. unfold Cli.prio in Heq.
      destruct (Cli.has_d y), (Cli.has_d x); try done; by repeat case_bool_decide.
    + apply Z.ltb_ge in Hxy. split_and!; [lia| |lia].
      unfold Cli.prio in Hxy, Hne.
      destruct (Cli.has_d y), (Cli.has_d x); try done; repeat case_bool_decide; lia.
  - done.
Qed.

Lemma table_in_key_order_witness :
  let e v t := Rss.Entry (Some v) (Some t) "2024-03-01T10:00:00Z" (Some "28.2.3")
                 (Some ("Obsidian " +:+ t +:+ " " +:+ v)) in
  let data := Cli.Raw [e "1.3.0" "Desktop"; e "1.2.0" "Mobile"; e "1.1.0" "Desktop"]
                [Docker.TagRecord (Some "1.1.0") "version-1.1.0" None] ∅ in
  let self := Cli.App (Some data) "" true true false true [] 0 false [] [] None in
  Cli.has_d <$> Cli.visible self data = [true; false; false]
  ∧ Cli.key_lt
      (Cli.sort_key self (Cli.mk_item (Cli.docker_map (Cli.docker data)) ∅ (e "1.3.0" "Desktop")))
      (Cli.sort_key self (Cli.mk_item (Cli.docker_map (Cli.docker data)) ∅ (e "1.1.0" "Desktop")))
    = false.
Proof.
  intros e data self. split; [reflexivity|].
  apply (table_in_key_order self data 0 2); [lia|reflexivity..].
Defined.

(** ** Several tags for one version *)

Lemma docker_map_snoc docker x :
  Cli.docker_map (docker ++ [x]) =
  match Docker.version x with
  | Some k => <[k := x]> (Cli.docker_map docker)
  | None => Cli.docker_map docker
  end.
Proof. unfold Cli.docker_map. by rewrite foldl_snoc. Qed.

Lemma docker_map_last docker v :
  Cli.docker_map docker !! v
  = last (List.filter (λ d, bool_decide (Docker.version d = Some v)) docker).
Proof.
  induction docker as [|x docker IH] using rev_ind; [done|].
  rewrite docker_map_snoc, List.filter_app. simpl.
  destruct (Docker.version x) as [k|] eqn:Ek.
  - destruct (decide (k = v)) as [->|Hne].
    + rewrite lookup_insert_eq, bool_decide_eq_true_2 by done. by rewrite last_snoc.
    + rewrite lookup_insert_ne by done.
      rewrite bool_decide_eq_false_2 by congruence. by rewrite app_nil_r.
  - rewrite bool_decide_eq_false_2 by done. by rewrite app_nil_r.
Qed.

(** When several tag records have the same version, the tag index
    keeps the one that comes last in the tag list, and that record is
    the one the confirmation dialog, and so the selection, carries. *)
Theorem last_tag_record_wins :
  (∀ docker v,
     Cli.docker_map docker !! v
     = last (List.filter (λ d, bool_decide (Docker.version d = Some v)) docker))
  ∧ (∀ self data row l1 d l2,
       Cli.raw_data self = Some data →
       Cli.well_formed data = true →
       Cli.table self = Cli.rows self data →
       Cli.table self !! Cli.cursor_row self = Some row →
       Cli.docker data = l1 ++ d :: l2 →
       Docker.version d = Some (Cli.c_version row) →
       (∀ d', d' ∈ l2 → Docker.version d' ≠ Some (Cli.c_version row)) →
       Cli.action_submit self
       = Cli.Ok (Cli.push_screen self (Cli.ConfirmScreen (Cli.c_version row) d))
       ∧ Cli.result (Cli.dismiss (Cli.push_screen self (Cli.ConfirmScreen (Cli.c_version row) d))
                       true)
         = Some (Cli.c_version row, Docker.tag d)).
Proof.
  split; [apply docker_map_last|].
  intros self data row l1 d l2 Hraw Hwf Htable Hrow Hdocker Hv Hl2.
  split; [|done].
  rewrite (submit_decides self data row Hraw Hwf Htable Hrow).
  rewrite docker_map_last, Hdocker, List.filter_app. simpl.
  rewrite bool_decide_eq_true_2 by done.
  replace (List.filter _ l2) with (@nil Docker.tag_record); [by rewrite last_snoc|].
  symmetry. clear -Hl2. induction l2 as [|x l2 IH]; simpl; [done|].
  rewrite bool_decide_eq_false_2 by (apply Hl2; by left).
  apply IH. intros d' Hd'. apply Hl2. by right.
Qed.

Lemma last_tag_record_wins_witness :
  let data := Cli.Raw [Rss.Entry (Some "1.4.16") (Some "Desktop") "2023-10-05T09:00:00"
                         (Some "25.8.1") (Some "Obsidian Desktop 1.4.16")]
                [Docker.TagRecord (Some "1.4.16") "1.4.16" (Some "2023-10-09");
                 Docker.TagRecord (Some "1.4.16") "version-1.4.16" (Some "2023-10-01")] ∅ in
  let self := Cli.handle_data_loaded Cli.init data in
  Cli.action_submit self
  = Cli.Ok (Cli.push_screen self
              (Cli.ConfirmScreen "1.4.16"
                 (Docker.TagRecord (Some "1.4.16") "version-1.4.16" (Some "2023-10-01")))).
Proof.
  intros data self. destruct last_tag_record_wins as [_ H].
  pose proof (H self data
                (Cli.Row "0" "1.4.16" "Desktop" "2023-10-05" "Found" "v25.8.1" "---")
                [Docker.TagRecord (Some "1.4.16") "1.4.16" (Some "2023-10-09")]
                (Docker.TagRecord (Some "1.4.16") "version-1.4.16" (Some "2023-10-01")) []
                eq_refl eq_refl eq_refl eq_refl eq_refl eq_refl) as [Hs _].
  - by intros d' ?%elem_of_nil.
  - exact Hs.
Defined.

(** ** The confirmation dialog *)

Lemma submit_outcomes self self' :
  Cli.action_submit self = Cli.Ok self' →
  (∃ msg, self' = Cli.notify self msg)
  ∨ (∃ v d, self' = Cli.push_screen self (Cli.ConfirmScreen v d)).
Proof.
  unfold Cli.action_submit.
  destruct (Cli.table self !! Cli.cursor_row self) as [row|]; [|done].
  destruct (Cli.submit_map _) as [dm|]; [|done].
  destruct (dm !! _) as [d|]; intros [= <-]; [right|left]; eauto.
Qed.

Lemma dismiss_push_false self v d :
  Cli.dismiss (Cli.push_screen self (Cli.ConfirmScreen v d)) false = self.
Proof. by destruct self. Qed.

(** After a submit that opened the dialog, Escape or the No button
    gives back exactly the state before the submit; Enter or the Yes
    button closes the dialog and sets the result to the version of the
    dialog and the tag of its record; any other key changes nothing. *)
Theorem confirm_dialog_keys (self self' : Cli.app) :
  Cli.action_submit self = Cli.Ok self' →
  Cli.screen_stack self' ≠ Cli.screen_stack self →
  Modal.key_pressed self' "escape" = self
  ∧ Modal.button_pressed self' "no" = self
  ∧ (∃ v d,
       self' = Cli.push_screen self (Cli.ConfirmScreen v d)
       ∧ Cli.result (Modal.key_pressed self' "enter") = Some (v, Docker.tag d)
       ∧ Modal.button_pressed self' "yes" = Modal.key_pressed self' "enter"
       ∧ Cli.screen_stack (Modal.key_pressed self' "enter") = Cli.screen_stack self
       ∧ Main.interact (Main.result_of (Modal.key_pressed self' "enter"))
         = Main.Selected v (Docker.tag d))
  ∧ (∀ key, key ≠ "enter" → key ≠ "escape" → Modal.key_pressed self' key = self').
Proof.
  intros [(msg & ->)|(v & d & ->)]%submit_outcomes Hstack; [done|].
  split_and!.
  - apply dismiss_push_false.
  - apply dismiss_push_false.
  - exists v, d. by destruct self.
  - intros key He%String.eqb_neq Hesc%String.eqb_neq.
    unfold Modal.key_pressed, Modal.on_key. by rewrite He, Hesc.
Qed.

Lemma confirm_dialog_keys_witness :
  let data := Cli.Raw [Rss.Entry (Some "1.4.16") (Some "Desktop") "2023-10-05T09:00:00"
                         (Some "25.8.1") (Some "Obsidian Desktop 1.4.16")]
                [Docker.TagRecord (Some "1.4.16") "version-1.4.16" (Some "2023-10-01")] ∅ in
  let self := Cli.handle_data_loaded Cli.init data in
  let self' := Cli.push_screen self
                 (Cli.ConfirmScreen "1.4.16"
                    (Docker.TagRecord (Some "1.4.16") "version-1.4.16" (Some "2023-10-01"))) in
  Modal.key_pressed self' "escape" = self.
Proof.
  intros data self self'.
  destruct (confirm_dialog_keys self self') as [H _]; [reflexivity|discriminate|exact H].
Defined.

(** ** Where a jump can land *)

Section scan_more.
Context (t : list Cli.row) (c n : Z) (q : string) (d : Z).

Lemma scan_Some_hit range idx :
  Cli.scan t c n q d range = Some idx → Cli.hit t q idx = true.
Proof.
  induction range as [|i range IH]; simpl; [done|].
  destruct (Cli.hit t q (Cli.idx_of c n d i)) eqn:E; [|done]. by intros [= <-].
Qed.

Lemma scan_None_inv range i :
  Cli.scan t c n q d range = None → i ∈ range →
  Cli.hit t q (Cli.idx_of c n d i) = false.
Proof.
  induction range as [|j range IH]; simpl; [by intros _ ?%elem_of_nil|].
  destruct (Cli.hit t q (Cli.idx_of c n d j)) eqn:E; [done|].
  intros Hnone [->|Hin]%elem_of_cons; [done|by apply IH].
Qed.

(** A hit of the scan over [a, a + len) is the first one. *)
Lemma scan_seqZ_Some (len : nat) a idx :
  Cli.scan t c n q d (seqZ a (Z.of_nat len)) = Some idx →
  ∃ k, a ≤ k < a + Z.of_nat len ∧ idx = Cli.idx_of c n d k
       ∧ ∀ j, a ≤ j < k → Cli.hit t q (Cli.idx_of c n d j) = false.
Proof.
  revert a. induction len as [|len IH]; intros a; [by rewrite seqZ_nil by lia|].
  rewrite seqZ_cons by lia. simpl.
  destruct (Cli.hit t q (Cli.idx_of c n d a)) eqn:E.
  - intros [= <-]. exists a. split; [lia|]. split; [done|]. intros j Hj. lia.
  - replace (Z.pred (Z.of_nat (S len))) with (Z.of_nat len) by lia.
    intros (k & Hk & -> & Hmiss)%IH. exists k. split; [lia|]. split; [done|].
    intros j Hj. destruct (decide (j = a)) as [->|]; [done|]. apply Hmiss. lia.
Qed.

Lemma hit_lt idx : Cli.hit t q idx = true → (idx < length t)%nat.
Proof.
  unfold Cli.hit. destruct (t !! idx) eqn:E; [|done].
  intros _. by eapply lookup_lt_Some.
Qed.
End scan_more.

(** A jump changes nothing but the cursor, and when it moves the
    cursor, the row it lands on is a row of the table whose text
    contains the lower-cased query: it never leaves the table and never
    stops on a row that does not match. *)
Theorem jump_lands_on_match (self : Cli.app) (d : Z) :
  let self' := Cli.jump_to_match self d in
  self' = Cli.set_table self (Cli.table self) (Cli.cursor_row self')
  ∧ (self' = self
     ∨ (Cli.search_query self ≠ ""
        ∧ (Cli.cursor_row self' < length (Cli.table self))%nat
        ∧ ∃ r, Cli.table self !! Cli.cursor_row self' = Some r
               ∧ Py.contains (Py.lower (Cli.search_query self)) (Cli.row_text r) = true)).
Proof.
  unfold Cli.jump_to_match.
  destruct (String.eqb_spec (Cli.search_query self) "") as [Hq|Hq].
  { split; [by destruct self|by left]. }
  destruct (Cli.scan _ _ _ _ _ _) as [idx|] eqn:E.
  - split; [done|]. right. pose proof (scan_Some_hit _ _ _ _ _ _ _ E) as Hhit.
    split_and!; [done|by eapply hit_lt|]. simpl. unfold Cli.hit in Hhit.
    destruct (Cli.table self !! idx) as [r|]; [|done]. by exists r.
  - split; [by destruct self|by left].
Qed.

Section jump_back.
Context (t : list Cli.row) (c n : Z) (q : string) (d : Z).
Hypothesis Hc : 0 ≤ c < n.

Lemma idx_of_back k j :
  Cli.idx_of (Z.of_nat (Cli.idx_of c n d k)) n (- d) j = Cli.idx_of c n d (k - j).
Proof.
  unfold Cli.idx_of. rewrite Z2Nat.id by (apply Z.mod_pos_bound; lia).
  rewrite Zplus_mod_idemp_l. f_equal. f_equal. ring.
Qed.

Lemma idx_of_around j : Cli.idx_of c n (- d) j = Cli.idx_of c n d (n - j).
Proof.
  unfold Cli.idx_of. f_equal.
  replace (c + (n - j) * d) with (c + j * - d + d * n) by ring.
  by rewrite Z_mod_plus_full.
Qed.

Lemma idx_of_0 : Cli.idx_of c n d 0 = Z.to_nat c.
Proof. unfold Cli.idx_of. rewrite Z.mul_0_l, Z.add_0_r, Z.mod_small; [done|lia]. Qed.

Lemma scan_back k :
  1 ≤ k < n →
  Cli.hit t q (Z.to_nat c) = true →
  (∀ j, 1 ≤ j < k → Cli.hit t q (Cli.idx_of c n d j) = false) →
  Cli.scan t (Z.of_nat (Cli.idx_of c n d k)) n q (- d) (seqZ 1 (n - 1))
  = Some (Z.to_nat c).
Proof.
  intros Hk Hhit Hmiss. rewrite (range_split n k Hk).
  rewrite scan_first.
  - by rewrite idx_of_back, Z.sub_diag, idx_of_0.
  - intros j Hj%elem_of_seqZ. rewrite idx_of_back. apply Hmiss. lia.
  - by rewrite idx_of_back, Z.sub_diag, idx_of_0.
Qed.

Lemma scan_none_back :
  Cli.scan t c n q d (seqZ 1 (n - 1)) = None →
  Cli.scan t c n q (- d) (seqZ 1 (n - 1)) = None.
Proof.
  intros Hnone. apply scan_None. intros j Hj%elem_of_seqZ.
  rewrite idx_of_around. apply (scan_None_inv _ _ _ _ _ _ _ Hnone).
  apply elem_of_seqZ. lia.
Qed.
End jump_back.

(** When the row under the cursor contains the query, a jump in one
    direction followed by a jump in the other brings the cursor back:
    previous-match undoes next-match and next-match undoes
    previous-match. *)
Theorem jump_there_and_back (self : Cli.app) :
  Cli.hit (Cli.table self) (Py.lower (Cli.search_query self)) (Cli.cursor_row self) = true →
  Cli.action_prev_match (Cli.action_next_match self) = self
  ∧ Cli.action_next_match (Cli.action_prev_match self) = self.
Proof.
  intros Hhit.
  assert (∀ d, Cli.jump_to_match (Cli.jump_to_match self d) (- d) = self) as Hback.
  { intros d. unfold Cli.jump_to_match at 2.
    destruct (String.eqb_spec (Cli.search_query self) "") as [Hq|Hq%String.eqb_neq].
    { unfold Cli.jump_to_match. apply String.eqb_eq in Hq. by rewrite Hq. }
    pose proof (hit_lt _ _ _ Hhit) as Hlt.
    set (n := Z.of_nat (length (Cli.table self))) in *.
    set (c := Z.of_nat (Cli.cursor_row self)) in *.
    assert (0 ≤ c < n) as Hc by lia.
    destruct (Cli.scan _ c n _ d _) as [idx|] eqn:E.
    - assert (n - 1 = Z.of_nat (Z.to_nat (n - 1))) as Hn by lia.
      rewrite Hn in E. apply scan_seqZ_Some in E as (k & Hk & -> & Hmiss).
      unfold Cli.jump_to_match. simpl. rewrite Hq. fold n.
      rewrite (scan_back _ c n _ d Hc k); [|lia|by unfold c; rewrite Nat2Z.id|done].
      unfold c. rewrite Nat2Z.id. by destruct self.
    - unfold Cli.jump_to_match. rewrite Hq. fold n c.
      by rewrite (scan_none_back _ c n _ d E). }
  split.
  - apply (Hback 1).
  - apply (Hback (-1)).
Qed.

Lemma jump_there_and_back_witness :
  let e v dt el := Rss.Entry (Some v) (Some "Desktop") dt (Some el)
                     (Some ("Obsidian Desktop " +:+ v)) in
  let data := Cli.Raw [e "1.2.0" "2024-03-01T10:00:00Z" "28.2.3";
                       e "1.1.0" "2024-02-01T10:00:00Z" "27.1.2";
                       e "1.0.3" "2024-01-01T09:15:42Z" "18.0.0"] [] ∅ in
  let self := Cli.on_input_changed (Cli.handle_data_loaded Cli.init data) "1." in
  Cli.cursor_row (Cli.action_next_match self) = 1%nat
  ∧ Cli.action_prev_match (Cli.action_next_match self) = self.
Proof.
  intros e data self. split; [reflexivity|].
  apply (jump_there_and_back self). reflexivity.
Defined.

(** ** The version the changelog adapter reads off a title *)

Section strings.
Implicit Types (s t q : string) (c : ascii).

Lemma append_cons c s t : String c s +:+ t = String c (s +:+ t).
Proof. done. Qed.

Lemma startswith_app s t : Py.startswith s (s +:+ t) = true.
Proof.
  induction s as [|c s IH]; [by destruct t|].
  rewrite append_cons. simpl. by rewrite Ascii.eqb_refl.
Qed.

Lemma startswith_contains q s : Py.startswith q s = true → Py.contains q s = true.
Proof. intros H. destruct s; simpl; by rewrite H. Qed.

Lemma contains_app_l q s t : Py.contains q t = true → Py.contains q (s +:+ t) = true.
Proof.
  intros H. induction s as [|c s IH]; [done|].
  rewrite append_cons. simpl. rewrite IH. apply orb_true_r.
Qed.

Lemma contains_middle q s t : Py.contains q (s +:+ q +:+ t) = true.
Proof. apply contains_app_l, startswith_contains, startswith_app. Qed.
End strings.

Section version_pattern.
Implicit Types (s d r m : string).

Lemma digits_spec s d r :
  Re.digits s = (d, r) → s = d +:+ r ∧ Re.all_digits d = true.
Proof.
  revert d r. induction s as [|c s IH]; intros d r; simpl.
  - by intros [= <- <-].
  - destruct (Py.is_digit c) eqn:Ec; [|by intros [= <- <-]].
    destruct (Re.digits s) as [d' r'] eqn:E. intros [= <- <-].
    destruct (IH d' r' eq_refl) as [-> Hd]. simpl. by rewrite Ec, Hd.
Qed.

Lemma digits1_spec s d r :
  Re.digits1 s = Some (d, r) → s = d +:+ r ∧ Re.all_digits d = true ∧ d ≠ "".
Proof.
  unfold Re.digits1. destruct (Re.digits s) as [[|c d'] r'] eqn:E; [done|].
  intros [= <- <-]. by destruct (digits_spec _ _ _ E).
Qed.

Lemma dot_spec s r : Re.dot s = Some r → s = String "." r.
Proof.
  destruct s as [|c s]; simpl; [done|].
  destruct (Ascii.eqb_spec c "."); [|done]. by intros [= <-]; subst.
Qed.

Lemma triple_at_spec s m :
  Re.triple_at s = Some m →
  ∃ d1 d2 d3 rest,
    m = d1 +:+ "." +:+ d2 +:+ "." +:+ d3 ∧ s = m +:+ rest
    ∧ Re.all_digits d1 = true ∧ Re.all_digits d2 = true ∧ Re.all_digits d3 = true
    ∧ d1 ≠ "" ∧ d2 ≠ "" ∧ d3 ≠ "".
Proof.
  unfold Re.triple_at.
  destruct (Re.digits1 s) as [[d1 r1]|] eqn:E1; simpl; [|done].
  destruct (Re.dot r1) as [r1'|] eqn:D1; simpl; [|done].
  destruct (Re.digits1 r1') as [[d2 r2]|] eqn:E2; simpl; [|done].
  destruct (Re.dot r2) as [r2'|] eqn:D2; simpl; [|done].
  destruct (Re.digits1 r2') as [[d3 r3]|] eqn:E3; simpl; [|done].
  intros [= <-].
  apply digits1_spec in E1 as (-> & ? & ?). apply dot_spec in D1 as ->.
  apply digits1_spec in E2 as (-> & ? & ?). apply dot_spec in D2 as ->.
  apply digits1_spec in E3 as (-> & ? & ?).
  exists d1, d2, d3, r3. split_and!; try done.
  by rewrite !append_assoc.
Qed.

Lemma search_spec (f : string → option string) s m :
  Re.search f s = Some m → ∃ pre suf, s = pre +:+ suf ∧ f suf = Some m.
Proof.
  induction s as [|c s IH]; simpl.
  - destruct (f "") eqn:E; [|done]. intros [= <-]. by exists "", "".
  - destruct (f (String c s)) eqn:E.
    + intros [= <-]. by exists "", (String c s).
    + intros (pre & suf & -> & ?)%IH. by exists (String c pre), suf.
Qed.

Lemma all_digits_dotted d : Re.all_digits d = true → Cli.dotted_numeric d = true.
Proof.
  induction d as [|c d IH]; simpl; [done|].
  intros [-> ?]%andb_prop. simpl. by apply IH.
Qed.

Lemma dotted_numeric_app s t :
  Cli.dotted_numeric s = true → Cli.dotted_numeric t = true →
  Cli.dotted_numeric (s +:+ t) = true.
Proof.
  intros Hs Ht. induction s as [|c s IH]; [done|].
  rewrite append_cons. simpl in *. apply andb_prop in Hs as [-> ?]. by apply IH.
Qed.

Lemma findall_digits_run run d s :
  Re.all_digits d = true →
  Py.findall_digits_from run (d +:+ s) = Py.findall_digits_from (run +:+ d) s.
Proof.
  revert run. induction d as [|c d IH]; intros run; simpl.
  - by rewrite append_empty_r.
  - intros [Hc Hd]%andb_prop. rewrite Hc, IH by done.
    by rewrite append_assoc.
Qed.

Lemma findall_digits_dot run s :
  Py.findall_digits_from run ("." +:+ s)
  = Py.flush run ++ Py.findall_digits_from "" s.
Proof. done. Qed.

Lemma findall_digits_triple d1 d2 d3 :
  Re.all_digits d1 = true → Re.all_digits d2 = true → Re.all_digits d3 = true →
  d1 ≠ "" → d2 ≠ "" → d3 ≠ "" →
  Py.findall_digits (d1 +:+ "." +:+ d2 +:+ "." +:+ d3) = [d1; d2; d3].
Proof.
  intros H1 H2 H3 N1 N2 N3. unfold Py.findall_digits.
  rewrite findall_digits_run, findall_digits_dot by done.
  rewrite findall_digits_run, findall_digits_dot by done.
  rewrite <- (append_empty_r d3) at 1.
  rewrite findall_digits_run by done. simpl.
  by destruct d1, d2, d3.
Qed.
End version_pattern.

Lemma search_version_spec (title v : string) :
  Re.search_version title = Some v →
  Cli.dotted_numeric v = true
  ∧ length (Version.v_parts v) = 3%nat
  ∧ Py.contains v title = true
  ∧ Cli.clean v = true.
Proof.
  intros (pre & suf & -> & Hm)%search_spec.
  apply triple_at_spec in Hm as (d1 & d2 & d3 & rest & -> & -> & H1 & H2 & H3 & N1 & N2 & N3).
  assert (Cli.dotted_numeric (d1 +:+ "." +:+ d2 +:+ "." +:+ d3) = true) as Hdn.
  { repeat (apply dotted_numeric_app; [try by apply all_digits_dotted|]); try done.
    by apply all_digits_dotted. }
  split_and!.
  - done.
  - unfold Version.v_parts. by rewrite findall_digits_triple.
  - apply contains_middle.
  - by apply dotted_numeric_clean.
Qed.

(** The version [get_data] finds in a title consists of digits and
    dots, has exactly three integer components, stands in the title,
    and is shown unchanged by the table ([clean]); a feed entry with
    such a title is kept, with that version. *)
Theorem title_version (title v : string) :
  Re.search_version title = Some v →
  Cli.dotted_numeric v = true
  ∧ length (Version.v_parts v) = 3%nat
  ∧ Py.contains v title = true
  ∧ Cli.clean v = true
  ∧ ∀ entry, RssSource.fe_title entry = Some title →
             ∃ m, RssSource.parse entry = Some m ∧ Rss.v_num m = v ∧ Rss.m_title m = title.
Proof.
  intros Hs. destruct (search_version_spec _ _ Hs) as (? & ? & ? & ?).
  split_and!; [done..|].
  intros entry Ht. unfold RssSource.parse. rewrite Ht. simpl. rewrite Hs. simpl.
  by eexists.
Qed.

Lemma title_version_witness :
  Cli.dotted_numeric "1.5.3" = true ∧ length (Version.v_parts "1.5.3") = 3%nat.
Proof.
  destruct (title_version "Obsidian Desktop v1.5.3 (Public)" "1.5.3" eq_refl)
    as (H1 & H2 & _).
  by split.
Defined.

(** ** The entries the changelog adapter builds *)

Section changelog_entries.
Implicit Types (l : list Rss.entry) (x y : Rss.entry) (d e : string).

Lemma electron_at_spec s e :
  Re.electron_at s = Some e → Cli.dotted_numeric e = true ∧ e ≠ "".
Proof.
  assert (∀ r m, Re.triple_at r = Some m → Cli.dotted_numeric m = true ∧ m ≠ "") as Ht.
  { intros r m (d1 & d2 & d3 & rest & -> & _ & H1 & H2 & H3 & N1 & _)%triple_at_spec.
    split; [|by destruct d1].
    repeat (apply dotted_numeric_app; [try by apply all_digits_dotted|]); try done.
    by apply all_digits_dotted. }
  unfold Re.electron_at. destruct (Re.iprefix _ s) as [r|]; simpl; [|done].
  destruct r as [|c r']; [apply Ht|].
  destruct (Ascii.eqb (Py.lower_char c) "v").
  - destruct (Re.triple_at r') eqn:E; [intros [= <-]; by eapply Ht|apply Ht].
  - apply Ht.
Qed.

Lemma search_electron_spec content e :
  Re.search_electron content = Some e → Cli.dotted_numeric e = true ∧ e ≠ "".
Proof. intros (pre & suf & _ & H)%search_spec. by eapply electron_at_spec. Qed.

Lemma last_seen_good d l :
  Cli.dotted_numeric d = true → d ≠ "" →
  (∀ y e, y ∈ l → Rss.electron y = Some e → Cli.dotted_numeric e = true) →
  Cli.dotted_numeric (Rss.last_seen d l) = true ∧ Rss.last_seen d l ≠ "".
Proof.
  revert d. induction l as [|x l IH]; intros d Hd Hne Hl; [done|].
  unfold Rss.last_seen. simpl. apply IH.
  - destruct (Rss.electron x) as [[|c e]|] eqn:E; [exact Hd| |exact Hd].
    apply (Hl x (String c e)); [by left|done].
  - by destruct (Rss.electron x) as [[|c e]|].
  - intros y e Hy. apply Hl. by right.
Qed.

Lemma elem_of_fill d l x :
  Cli.dotted_numeric d = true → d ≠ "" →
  (∀ y e, y ∈ l → Rss.electron y = Some e → Cli.dotted_numeric e = true) →
  x ∈ Rss.fill d l →
  ∃ y e, y ∈ l ∧ x = Rss.with_electron y e ∧ e ≠ "" ∧ Cli.dotted_numeric e = true.
Proof.
  intros Hd Hne Hl. rewrite fill_imap.
  intros (i & y & -> & Hy)%elem_of_lookup_imap.
  pose proof (list_elem_of_lookup_2 _ _ _ Hy) as Hin.
  destruct (Rss.electron y) as [[|c e]|] eqn:E; simpl.
  - destruct (last_seen_good d (take i l)) as [? ?]; [done..| |by eauto 10].
    intros z e (j & Hj & _)%elem_of_take. apply Hl. by eapply list_elem_of_lookup_2.
  - exists y, (String c e). split_and!; [done|by destruct y; simpl in *; subst|done|].
    by apply (Hl y).
  - destruct (last_seen_good d (take i l)) as [? ?]; [done..| |by eauto 10].
    intros z e (j & Hj & _)%elem_of_take. apply Hl. by eapply list_elem_of_lookup_2.
Qed.
End changelog_entries.

Lemma length_versions_of entries :
  length (RssSource.versions_of entries)
  = length (List.filter (λ en, bool_decide (is_Some (Re.search_version
                                                      (default "" (RssSource.fe_title en)))))
                        entries).
Proof.
  unfold RssSource.versions_of, Rss.get_data, Rss.order_and_fill.
  rewrite length_reverse, length_fill, length_sorted, length_fmap.
  induction entries as [|en entries IH]; [done|].
  cbn [omap list_omap List.filter]. unfold RssSource.parse at 1.
  destruct (Re.search_version _) as [v|]; simpl; by rewrite IH.
Qed.

Lemma versions_of_entry (entries : list RssSource.feed_entry) :
  ∀ x,
     x ∈ RssSource.versions_of entries →
     (∃ v, Rss.version x = Some v ∧ Cli.dotted_numeric v = true
           ∧ length (Version.v_parts v) = 3%nat ∧ Cli.clean v = true)
     ∧ (∃ t, Rss.title x = Some t
             ∧ Rss.type x = Some (if Py.contains "Desktop" t then "Desktop" else "Mobile"))
     ∧ (∃ e, Rss.electron x = Some e ∧ e ≠ "" ∧ Cli.dotted_numeric e = true).
Proof.
  intros x. unfold RssSource.versions_of, Rss.get_data, Rss.order_and_fill.
  rewrite elem_of_reverse.
  assert (∀ y, y ∈ Py.sorted Py.list_lt Rss.sort_key (Rss.build <$> omap RssSource.parse entries) →
            ∃ en m, RssSource.parse en = Some m ∧ y = Rss.build m) as Hbuilt.
  { intros y. rewrite elem_of_sorted.
    intros (m & -> & (en & _ & ?)%list_elem_of_omap)%list_elem_of_fmap. eauto. }
  intros (y & e & Hy & -> & Hne & He)%elem_of_fill; [|done|done|].
  - destruct (Hbuilt y Hy) as (en & m & Hm & ->). unfold RssSource.parse in Hm.
    destruct (Re.search_version _) as [v|] eqn:Ev; simpl in Hm; [|done].
    injection Hm as <-. simpl.
    destruct (search_version_spec _ _ Ev) as (? & ? & _ & ?).
    split_and!; eauto 10.
  - intros y e Hy. destruct (Hbuilt y Hy) as (en & m & Hm & ->). unfold RssSource.parse in Hm.
    destruct (Re.search_version _) as [v|]; simpl in Hm; [|done].
    injection Hm as <-. simpl. intros He. by apply search_electron_spec in He as [? _].
Qed.

Lemma versions_of_clean (entries : list RssSource.feed_entry) :
  forallb (λ x, from_option Cli.clean false (Rss.version x))
          (RssSource.versions_of entries) = true.
Proof.
  apply forallb_forall. intros x Hx%list_elem_of_In.
  destruct (versions_of_entry entries x Hx) as ((v & -> & _ & _ & Hc) & _). done.
Qed.

(** Every entry of the list built from a feed has a version of three
    dotted numbers that the table shows unchanged, the platform Desktop
    or Mobile (Desktop exactly when the title says so), a title, and an
    engine version that is not empty and made of digits and dots; the
    list has one entry for each feed entry whose title holds a
    version. *)
Theorem changelog_entries_well_formed (entries : list RssSource.feed_entry) :
  (∀ x,
     x ∈ RssSource.versions_of entries →
     (∃ v, Rss.version x = Some v ∧ Cli.dotted_numeric v = true
           ∧ length (Version.v_parts v) = 3%nat ∧ Cli.clean v = true)
     ∧ (∃ t, Rss.title x = Some t
             ∧ Rss.type x = Some (if Py.contains "Desktop" t then "Desktop" else "Mobile"))
     ∧ (∃ e, Rss.electron x = Some e ∧ e ≠ "" ∧ Cli.dotted_numeric e = true))
  ∧ length (RssSource.versions_of entries)
    = length (List.filter (λ en, bool_decide (is_Some (Re.search_version
                                                        (default "" (RssSource.fe_title en)))))
                          entries)
  ∧ forallb (λ x, from_option Cli.clean false (Rss.version x))
            (RssSource.versions_of entries) = true.
Proof.
  split_and!.
  - apply versions_of_entry.
  - apply length_versions_of.
  - apply versions_of_clean.
Qed.

Lemma changelog_entries_well_formed_witness :
  let en := RssSource.FeedEntry (Some "Obsidian Desktop v1.5.3 (Public)")
              (Some "Upgraded to Electron v25.8.1.") (Some "2023-12-26T00:00:00Z") None in
  RssSource.versions_of [en]
  = [Rss.Entry (Some "1.5.3") (Some "Desktop") "2023-12-26T00:00:00Z" (Some "25.8.1")
       (Some "Obsidian Desktop v1.5.3 (Public)")]
  ∧ ∃ v, Some "1.5.3" = Some v ∧ Cli.dotted_numeric v = true
         ∧ length (Version.v_parts v) = 3%nat ∧ Cli.clean v = true.
Proof.
  intros en. split; [reflexivity|].
  destruct (changelog_entries_well_formed [en]) as [H _].
  destruct (H (Rss.Entry (Some "1.5.3") (Some "Desktop") "2023-12-26T00:00:00Z"
                 (Some "25.8.1") (Some "Obsidian Desktop v1.5.3 (Public)"))) as [Hv _].
  - apply list_elem_of_In. vm_compute. by left.
  - exact Hv.
Defined.

(** ** The tags the registry adapter keeps *)

Section registry_tags.
Implicit Types (versions : list Docker.tag_record) (r : Docker.tag_record).

Lemma split_head_no_sep c s :
  Py.contains (String c "") (Py.split_head c s) = false.
Proof.
  induction s as [|a s IH]; simpl; [done|].
  destruct (Ascii.eqb_spec a c) as [->|Hne]; simpl; [done|].
  destruct (Ascii.eqb_spec c a) as [->|_]; [done|]. by rewrite IH.
Qed.

Lemma keep_kept tag_name u r :
  DockerSource.keep tag_name u = Some r →
  DockerSource.kept r ∧ Docker.tag r = tag_name ∧ Docker.last_updated r = u.
Proof.
  unfold DockerSource.keep.
  destruct (existsb _ DockerSource.noise) eqn:En; [done|].
  destruct (Py.findall_digits _) as [|p ps] eqn:Ep; [done|].
  destruct (Z.ltb_spec (Py.int p) 1); [done|]. intros [= <-]. simpl.
  split; [|done]. unfold DockerSource.kept. simpl. split_and!.
  - done.
  - apply Forall_forall. intros x Hx%list_elem_of_In.
    destruct (Py.contains x tag_name) eqn:Ex; [|done].
    assert (existsb (λ x, Py.contains x tag_name) DockerSource.noise = true); [|congruence].
    apply existsb_exists. eauto.
  - apply split_head_no_sep.
  - exists (Py.int p), (Py.int <$> ps). unfold Version.v_parts. by rewrite Ep.
Qed.

Lemma add_results_kept rs versions versions' :
  DockerSource.add_results rs versions = Some versions' →
  Forall DockerSource.kept versions → Forall DockerSource.kept versions'.
Proof.
  revert versions. induction rs as [|x rs IH]; intros versions; simpl.
  - by intros [= <-].
  - destruct (DockerSource.name x) as [tag_name|]; simpl; [|done].
    destruct (DockerSource.keep tag_name _) as [r|] eqn:E; [|apply IH].
    intros H Hv. apply (IH _ H). apply Forall_app. split; [done|].
    constructor; [|done]. by apply keep_kept in E as [? _].
Qed.

Lemma fetch_kept responses versions versions' :
  DockerSource.fetch responses versions = Some versions' →
  Forall DockerSource.kept versions → Forall DockerSource.kept versions'.
Proof.
  revert versions. induction responses as [|[data|] responses IH]; intros versions;
    simpl; [done| |done].
  destruct (DockerSource.add_results _ versions) as [vs|] eqn:E; simpl; [|done].
  intros H Hv. pose proof (add_results_kept _ _ _ E Hv) as Hvs.
  destruct (DockerSource.url_set _); [by eapply IH|]. by injection H as <-.
Qed.

Lemma add_results_nameless rs versions x :
  x ∈ rs → DockerSource.name x = None → DockerSource.add_results rs versions = None.
Proof.
  revert versions. induction rs as [|y rs IH]; intros versions Hin Hx;
    [by apply elem_of_nil in Hin|].
  simpl. apply elem_of_cons in Hin as [<-|Hin]; [by rewrite Hx|].
  destruct (DockerSource.name y); simpl; [|done].
  destruct (DockerSource.keep _ _); by apply IH.
Qed.

(** A failure after any number of pages that have a next page. *)
Lemma fetch_fails_later pages responses versions :
  Forall (λ p, DockerSource.url_set (DockerSource.next p) = true) pages →
  match responses with
  | [] | None :: _ => True
  | Some p :: _ => ∃ x, x ∈ DockerSource.results p ∧ DockerSource.name x = None
  end →
  DockerSource.fetch ((Some <$> pages) ++ responses) versions = None.
Proof.
  intros Hpages Hfail. revert versions.
  induction Hpages as [|p pages Hp _ IH]; intros versions; simpl.
  - destruct responses as [|[p|] rest]; [done| |done].
    destruct Hfail as (x & Hin & Hx). simpl.
    by rewrite (add_results_nameless _ _ x Hin Hx).
  - destruct (DockerSource.add_results _ versions); simpl; [|done]. by rewrite Hp.
Qed.
End registry_tags.

(** ** Strings under Python's [<] *)

Section str_lt_facts.
Implicit Types a b c : string.

Lemma str_lt_irrefl a : Py.str_lt a a = false.
Proof. induction a as [|x a IH]; simpl; [done|]. by rewrite Ascii.eqb_refl. Qed.

Lemma str_lt_trans a b c :
  Py.str_lt a b = true → Py.str_lt b c = true → Py.str_lt a c = true.
Proof.
  revert b c. induction a as [|x a IH]; intros [|y b] [|z c]; simpl; try done.
  destruct (Ascii.eqb_spec x y) as [->|Hxy].
  - destruct (Ascii.eqb_spec y z) as [->|Hyz]; [apply IH|done].
  - destruct (Ascii.eqb_spec y z) as [->|Hyz].
    + intros H _. by destruct (Ascii.eqb_spec x z).
    + intros H1%Nat.ltb_lt H2%Nat.ltb_lt.
      destruct (Ascii.eqb_spec x z) as [->|Hxz]; [lia|]. apply Nat.ltb_lt. lia.
Qed.

Lemma str_lt_total a b : Py.str_lt a b = false → Py.str_lt b a = false → a = b.
Proof.
  revert b. induction a as [|x a IH]; intros [|y b]; simpl; try done.
  destruct (Ascii.eqb_spec x y) as [->|Hxy].
  - rewrite Ascii.eqb_refl. intros H1 H2. f_equal. by apply IH.
  - destruct (Ascii.eqb_spec y x) as [->|_]; [done|].
    intros H1%Nat.ltb_ge H2%Nat.ltb_ge. destruct Hxy.
    rewrite <- (ascii_nat_embedding x), <- (ascii_nat_embedding y). f_equal. lia.
Qed.

Lemma str_lt_asym a b : Py.str_lt a b = true → Py.str_lt b a = false.
Proof.
  intros H. destruct (Py.str_lt b a) eqn:E; [|done].
  pose proof (str_lt_trans _ _ _ H E) as Haa. by rewrite str_lt_irrefl in Haa.
Qed.

Lemma str_not_lt_trans a b c :
  Py.str_lt a b = false → Py.str_lt b c = false → Py.str_lt a c = false.
Proof.
  intros Hab Hbc. destruct (Py.str_lt a c) eqn:Hac; [|done].
  destruct (Py.str_lt c b) eqn:Hcb.
  - pose proof (str_lt_trans _ _ _ Hac Hcb). congruence.
  - pose proof (str_lt_total _ _ Hbc Hcb) as ->. congruence.
Qed.

Lemma str_lt_empty a : Py.str_lt "" a = false → a = "".
Proof. by destruct a. Qed.
End str_lt_facts.

(** ** The tag list of the registry adapter *)

Section registry_list.
Context (loads : string → option (list Docker.tag_record))
        (dumps : list Docker.tag_record → string).
Implicit Types (d : Io.disk) (versions : list Docker.tag_record).

Lemma sort_versions_Permutation versions :
  DockerSource.sort_versions versions ≡ₚ versions.
Proof.
  unfold DockerSource.sort_versions, Py.sorted_reverse.
  by rewrite reverse_Permutation, sorted_Permutation, reverse_Permutation.
Qed.

Lemma sort_versions_sorted versions :
  StronglySorted
    (λ x y, Py.str_lt (DockerSource.updated_key x) (DockerSource.updated_key y) = false)
    (DockerSource.sort_versions versions).
Proof.
  apply Sorted_StronglySorted.
  - intros x y z. apply str_not_lt_trans.
  - unfold DockerSource.sort_versions, Py.sorted_reverse.
    apply (Sorted_reverse (Py.not_after Py.str_lt DockerSource.updated_key)).
    apply sorted_Sorted. intros k1 k2. apply str_lt_asym.
Qed.

(** What a call that does not read the cache returns. *)
Lemma get_data_fresh force d responses :
  force = true ∨ Io.snapshot d = Io.NoFile →
  DockerSource.get_data loads dumps force d responses =
  match DockerSource.fetch responses [] with
  | None | Some [] => Io.Return [] d
  | Some versions =>
      match Io.write_text d (dumps (DockerSource.sort_versions versions)) with
      | Some d' => Io.Return (DockerSource.sort_versions versions) d'
      | None => Io.Raises Io.OSError d
      end
  end.
Proof.
  intros Hfresh. unfold DockerSource.get_data, Io.read.
  destruct Hfresh as [->| ->]; [done|]. by destruct force.
Qed.

Lemma get_data_fresh_inv force d responses versions d' :
  force = true ∨ Io.snapshot d = Io.NoFile →
  DockerSource.get_data loads dumps force d responses = Io.Return versions d' →
  (versions = [] ∧ d' = d
   ∧ (DockerSource.fetch responses [] = None ∨ DockerSource.fetch responses [] = Some []))
  ∨ (∃ fetched, DockerSource.fetch responses [] = Some fetched ∧ fetched ≠ []
                ∧ versions = DockerSource.sort_versions fetched
                ∧ d' = Io.Disk (Io.Text (dumps versions)) true).
Proof.
  intros Hfresh. rewrite get_data_fresh by done.
  destruct (DockerSource.fetch responses []) as [[|x l]|] eqn:E.
  - intros [= <- <-]. left. eauto.
  - unfold Io.write_text. destruct (Io.writable d); [|done].
    intros [= <- <-]. right. by exists (x :: l).
  - intros [= <- <-]. left. eauto.
Qed.

Lemma fresh_tags_kept force d d' responses versions :
  force = true ∨ Io.snapshot d = Io.NoFile →
  DockerSource.get_data loads dumps force d responses = Io.Return versions d' →
  Forall DockerSource.kept versions
  ∧ forallb (λ r, bool_decide (is_Some (Docker.version r))) versions = true.
Proof.
  intros Hfresh Hget.
  assert (Forall DockerSource.kept versions) as Hkept.
  { destruct (get_data_fresh_inv _ _ _ _ _ Hfresh Hget)
      as [(-> & _)|(fetched & Hf & _ & -> & _)]; [done|].
    rewrite sort_versions_Permutation. by apply (fetch_kept _ _ _ Hf). }
  split; [done|]. apply forallb_forall. intros r Hr%list_elem_of_In.
  rewrite Forall_forall in Hkept. destruct (Hkept r Hr) as [-> _].
  by apply bool_decide_eq_true_2.
Qed.
End registry_list.

(** Every record of a freshly fetched tag list was built by [keep]:
    its version is its tag name without ["version-"] and cut at the
    first hyphen, the tag holds none of the noise words, the version
    holds no hyphen and its first number is at least 1. In particular
    every record has a version. *)
Theorem registry_tags_kept (loads : string → option (list Docker.tag_record))
    (dumps : list Docker.tag_record → string) (force : bool) (d d' : Io.disk)
    (responses : list (option DockerSource.page)) (versions : list Docker.tag_record) :
  force = true ∨ Io.snapshot d = Io.NoFile →
  DockerSource.get_data loads dumps force d responses = Io.Return versions d' →
  Forall DockerSource.kept versions
  ∧ forallb (λ r, bool_decide (is_Some (Docker.version r))) versions = true.
Proof.
  apply fresh_tags_kept.
Qed.

Lemma registry_tags_kept_witness :
  let r n := DockerSource.TagResult (Some n) (Some "2024-01-05T10:00:00Z") in
  let responses := [Some (DockerSource.Page [r "latest"; r "version-1.5.3"; r "1.5.3-ls12";
                                             r "version-0.15.9"; r "arm64v8-1.5.3"] None)] in
  let kept := [Docker.TagRecord (Some "1.5.3") "version-1.5.3" (Some "2024-01-05T10:00:00Z")] in
  DockerSource.get_data (λ _, None) (λ _, "[]") false (Io.Disk Io.NoFile true) responses
  = Io.Return kept (Io.Disk (Io.Text "[]") true)
  ∧ Forall DockerSource.kept kept.
Proof.
  intros r responses kept. split; [reflexivity|].
  refine (proj1 (registry_tags_kept (λ _, None) (λ _, "[]") false (Io.Disk Io.NoFile true)
                   (Io.Disk (Io.Text "[]") true) responses kept _ _)).
  - by right.
  - reflexivity.
Defined.

(** The registry fetch is all or nothing: when a request fails after
    any number of pages, or a page holds a result without a name,
    [get_data] returns the empty list and leaves the snapshot as it
    was, whatever had been collected. *)
Theorem registry_all_or_nothing (loads : string → option (list Docker.tag_record))
    (dumps : list Docker.tag_record → string) (force : bool) (d : Io.disk)
    (pages : list DockerSource.page) (rest : list (option DockerSource.page)) :
  force = true ∨ Io.snapshot d = Io.NoFile →
  Forall (λ p, DockerSource.url_set (DockerSource.next p) = true) pages →
  DockerSource.get_data loads dumps force d ((Some <$> pages) ++ None :: rest)
  = Io.Return [] d
  ∧ ∀ p x, x ∈ DockerSource.results p → DockerSource.name x = None →
           DockerSource.get_data loads dumps force d ((Some <$> pages) ++ Some p :: rest)
           = Io.Return [] d.
Proof.
  intros Hfresh Hpages. split.
  - rewrite get_data_fresh by done. by rewrite fetch_fails_later.
  - intros p x Hin Hx. rewrite get_data_fresh by done.
    rewrite fetch_fails_later; [done|done|]. by exists x.
Qed.

Lemma registry_all_or_nothing_witness :
  let r n := DockerSource.TagResult (Some n) (Some "2024-01-05T10:00:00Z") in
  let page := DockerSource.Page [r "version-1.5.3"; r "version-1.4.16"] (Some "page=2") in
  DockerSource.fetch [Some page; Some (DockerSource.Page [] None)] [] ≠ None
  ∧ DockerSource.get_data (λ _, None) (λ _, "[]") true (Io.Disk (Io.Text "old") true)
      [Some page; None]
    = Io.Return [] (Io.Disk (Io.Text "old") true).
Proof.
  intros r page. split; [discriminate|].
  apply (registry_all_or_nothing (λ _, None) (λ _, "[]") true
           (Io.Disk (Io.Text "old") true) [page] []).
  - by left.
  - by repeat constructor.
Defined.

(** A freshly fetched tag list holds the records that were fetched, in
    the order of their time stamps, latest first: no record stands
    above one with a later time stamp, and records without a time stamp
    come after all the others. *)
Theorem registry_latest_first (loads : string → option (list Docker.tag_record))
    (dumps : list Docker.tag_record → string) (force : bool) (d d' : Io.disk)
    (responses : list (option DockerSource.page)) (versions : list Docker.tag_record) :
  force = true ∨ Io.snapshot d = Io.NoFile →
  DockerSource.get_data loads dumps force d responses = Io.Return versions d' →
  (∀ fetched, DockerSource.fetch responses [] = Some fetched → versions ≡ₚ fetched)
  ∧ ∀ i j x y,
      (i < j)%nat → versions !! i = Some x → versions !! j = Some y →
      Py.str_lt (DockerSource.updated_key x) (DockerSource.updated_key y) = false
      ∧ (DockerSource.updated_key x = "" → DockerSource.updated_key y = "").
Proof.
  intros Hfresh Hget.
  destruct (get_data_fresh_inv _ _ _ _ _ _ _ Hfresh Hget)
    as [(-> & _ & Hf)|(fetched & Hf & _ & -> & _)].
  - split; [|intros i j x y _ Hx; by rewrite lookup_nil in Hx].
    intros fetched Hfetched. destruct Hf as [Hf|Hf]; rewrite Hf in Hfetched; [done|].
    by injection Hfetched as <-.
  - split.
    + intros f Hf'. rewrite Hf in Hf'. injection Hf' as <-. apply sort_versions_Permutation.
    + intros i j x y Hij Hx Hy.
      pose proof (StronglySorted_lookup _ _ _ _ _ _ (sort_versions_sorted fetched)
                    Hij Hx Hy) as Hxy.
      simpl in Hxy. split; [done|]. intros Hempty. rewrite Hempty in Hxy.
      by apply str_lt_empty.
Qed.

Lemma registry_latest_first_witness :
  let r n u := DockerSource.TagResult (Some n) u in
  let responses := [Some (DockerSource.Page [r "version-1.4.16" (Some "2023-10-01");
                                             r "version-1.3.7" None;
                                             r "version-1.5.3" (Some "2024-01-05")] None)] in
  let a := Docker.TagRecord (Some "1.5.3") "version-1.5.3" (Some "2024-01-05") in
  let b := Docker.TagRecord (Some "1.3.7") "version-1.3.7" None in
  Py.str_lt (DockerSource.updated_key a) (DockerSource.updated_key b) = false.
Proof.
  intros r responses a b.
  destruct (registry_latest_first (λ _, None) (λ _, "[]") true (Io.Disk Io.NoFile true)
              (Io.Disk (Io.Text "[]") true) responses
              [a; Docker.TagRecord (Some "1.4.16") "version-1.4.16" (Some "2023-10-01"); b])
    as [_ H]; [by left|reflexivity|].
  by destruct (H 0%nat 2%nat a b) as [Hlt _]; [lia|reflexivity..|].
Defined.

(** ** The snapshots as a cache *)



(** The registry adapter reads through its snapshot in the same way,
    but never writes an empty list: a call that returned a non-empty
    list is repeated by every later call without [force], while a fetch
    that keeps no tag returns the empty list and leaves the snapshot as
    it was, so that after a forced refresh that found nothing a later
    call still returns the old snapshot. *)
Theorem registry_cache (loads : string → option (list Docker.tag_record))
    (dumps : list Docker.tag_record → string) (d : Io.disk) :
  (∀ force responses versions d' responses',
     DockerSource.get_data loads dumps force d responses = Io.Return versions d' →
     versions ≠ [] →
     loads (dumps versions) = Some versions →
     DockerSource.get_data loads dumps false d' responses' = Io.Return versions d')
  ∧ (∀ responses,
       DockerSource.fetch responses [] = Some [] →
       DockerSource.get_data loads dumps true d responses = Io.Return [] d
       ∧ ∀ s old responses',
           Io.snapshot d = Io.Text s → loads s = Some old →
           DockerSource.get_data loads dumps false d responses' = Io.Return old d).
Proof.
  split.
  - intros force responses versions d' responses'. unfold DockerSource.get_data at 1.
    assert (∀ cached, Io.read loads force d = Io.Hit cached →
              Io.read loads false d = Io.Hit cached) as Hhit.
    { intros cached. unfold Io.read. by destruct force. }
    destruct (Io.read loads force d) as [cached| |] eqn:Er.
    { intros [= <- <-] _ _. unfold DockerSource.get_data. by rewrite (Hhit _ eq_refl). }
    all: destruct (DockerSource.fetch responses []) as [[|v l]|];
      [intros [= <- <-] Hne; by destruct Hne| |intros [= <- <-] Hne; by destruct Hne];
      unfold Io.write_text; destruct (Io.writable d); [|done];
      intros [= <- <-] _ Hrt; unfold DockerSource.get_data, Io.read; simpl; by rewrite Hrt.
  - intros responses Hf. split.
    + unfold DockerSource.get_data, Io.read. by rewrite Hf.
    + intros s old responses' Hs Hl. unfold DockerSource.get_data, Io.read.
      by rewrite Hs, Hl.
Qed.

Lemma registry_cache_witness :
  let r n := DockerSource.TagResult (Some n) (Some "2024-01-05T10:00:00Z") in
  let d := Io.Disk (Io.Text "old") true in
  let old := [Docker.TagRecord (Some "1.4.16") "version-1.4.16" None] in
  let loads := λ s : string, if String.eqb s "old" then Some old else None in
  DockerSource.get_data loads (λ _, "new") true d
    [Some (DockerSource.Page [r "latest"; r "develop"] None)] = Io.Return [] d
  ∧ DockerSource.get_data loads (λ _, "new") false d [] = Io.Return old d.
Proof.
  intros r d old loads.
  destruct (registry_cache loads (λ _, "new") d) as [_ H].
  destruct (H [Some (DockerSource.Page [r "latest"; r "develop"] None)] eq_refl) as [H1 H2].
  split; [exact H1|]. by apply (H2 "old").
Defined.



(** ** The worker and the loaded table *)

Section worker.
Context (loads_rss : string → option (list Rss.entry))
        (dumps_rss : list Rss.entry → string)
        (loads_docker : string → option (list Docker.tag_record))
        (dumps_docker : list Docker.tag_record → string)
        (loads_electron : string → option (gmap string string))
        (dumps_electron : gmap string string → string).

Lemma rss_fresh_clean force d d' response versions :
  force = true ∨ Io.snapshot d = Io.NoFile →
  RssSource.get_data loads_rss dumps_rss force d response = Io.Return versions d' →
  forallb (λ x, from_option Cli.clean false (Rss.version x)) versions = true.
Proof.
  intros Hfresh. unfold RssSource.get_data.
  assert (Io.read loads_rss force d = Io.Miss) as ->.
  { unfold Io.read. destruct Hfresh as [->| ->]; [done|by destruct force]. }
  destruct response as [entries|]; [|by intros [= <- <-]].
  destruct (Io.write_text _ _); [|done]. intros [= <- <-]. apply versions_of_clean.
Qed.

Lemma handle_data_loaded_table self data :
  let self' := Cli.handle_data_loaded self data in
  Cli.raw_data self' = Some data
  ∧ Cli.table self' = Cli.rows self' data
  ∧ Cli.cursor_row self' = 0%nat
  ∧ Cli.screen_stack self' = tail (Cli.screen_stack self).
Proof.
  unfold Cli.handle_data_loaded, Cli.update_table, Cli.set_table. simpl.
  by split_and!.
Qed.
End worker.

(** Data that the worker fetched itself (a forced refresh, or a first
    run without snapshots) is well formed, and the picker it hands the
    data to shows the table of that data with the cursor on the first
    row: the picker then is in a state in which submitting on a row
    does what its status says. *)
Theorem fresh_data_well_formed
    (loads_rss : string → option (list Rss.entry)) (dumps_rss : list Rss.entry → string)
    (loads_docker : string → option (list Docker.tag_record))
    (dumps_docker : list Docker.tag_record → string)
    (loads_electron : string → option (gmap string string))
    (dumps_electron : gmap string string → string)
    (self self' : Cli.app) (force_refresh : bool) (d_rss d_docker d_electron : Io.disk)
    (feed : option (list RssSource.feed_entry)) (tags : list (option DockerSource.page))
    (mapping : option (gmap string string)) :
  force_refresh = true ∨ (Io.snapshot d_rss = Io.NoFile ∧ Io.snapshot d_docker = Io.NoFile) →
  Worker.fetch_all_data loads_rss dumps_rss loads_docker dumps_docker
    loads_electron dumps_electron self force_refresh d_rss d_docker d_electron
    feed tags mapping = inl self' →
  ∃ data,
    Cli.raw_data self' = Some data
    ∧ Cli.well_formed data = true
    ∧ Cli.table self' = Cli.rows self' data
    ∧ Cli.cursor_row self' = 0%nat
    ∧ (Cli.screen_stack self = [Cli.LoadingScreen] → Cli.result self = None →
       Cli.search_visible self = false → Cli.mode_of self' = Cli.Browsing).
Proof.
  intros Hfresh. unfold Worker.fetch_all_data.
  destruct (RssSource.get_data _ _ _ d_rss _) as [rss ?|] eqn:Er; [|done].
  destruct (DockerSource.get_data _ _ _ d_docker _) as [docker ?|] eqn:Ed; [|done].
  destruct (ElectronSource.get_data _ _ _ d_electron _) as [electron ?|] eqn:Ee; [|done].
  intros [= <-]. exists (Cli.Raw rss docker electron).
  destruct (handle_data_loaded_table self (Cli.Raw rss docker electron))
    as (Hraw & Htable & Hcur & Hstack).
  split_and!; [done| |done|done|].
  - unfold Cli.well_formed. simpl. apply andb_true_intro. split.
    + eapply rss_fresh_clean; [|exact Er]. tauto.
    + eapply fresh_tags_kept; [|exact Ed]. tauto.
  - intros Hs Hres Hsv. unfold Cli.mode_of. rewrite Hstack, Hs. simpl.
    unfold Cli.handle_data_loaded, Cli.update_table. simpl. by rewrite Hres, Hsv.
Qed.

Lemma fresh_data_well_formed_witness :
  let en := RssSource.FeedEntry (Some "Obsidian Desktop v1.5.3 (Public)")
              (Some "Upgraded to Electron v25.8.1.") (Some "2023-12-26T00:00:00Z") None in
  let page := DockerSource.Page
                [DockerSource.TagResult (Some "version-1.5.3") (Some "2024-01-05")] None in
  let d := Io.Disk Io.NoFile true in
  let self' :=
    Cli.handle_data_loaded (Cli.on_mount Cli.init)
      (Cli.Raw (RssSource.versions_of [en])
               [Docker.TagRecord (Some "1.5.3") "version-1.5.3" (Some "2024-01-05")]
               {["25.8.1" := "114.0.5735.289"]}) in
  Cli.c_status <$> Cli.table self' = ["Found"]
  ∧ Cli.mode_of self' = Cli.Browsing.
Proof.
  intros en page d self'. split; [reflexivity|].
  destruct (fresh_data_well_formed (λ _, None) (λ _, "[]") (λ _, None) (λ _, "[]")
              (λ _, None) (λ _, "{}") (Cli.on_mount Cli.init) self' true d d d
              (Some [en]) [Some page] (Some {["25.8.1" := "114.0.5735.289"]}))
    as (data & _ & _ & _ & _ & Hmode); [by left|reflexivity|].
  by apply Hmode.
Defined.



(** ** A session without registry data *)

Lemma has_d_of_empty x : Cli.has_d_of ∅ x = false.
Proof.
  unfold Cli.has_d_of. rewrite lookup_empty.
  rewrite bool_decide_eq_false_2; [done|]. by intros [? ?].
Qed.

Lemma collect_found_only_empty self em seen l :
  Cli.found_only self = true → Cli.collect self ∅ em seen l = [].
Proof.
  intros Hf. revert seen. induction l as [|x l IH]; intros seen; [done|].
  rewrite collect_cons. unfold Cli.passes, Cli.filtered_out.
  rewrite Hf, has_d_of_empty. simpl. rewrite orb_true_r. simpl. apply IH.
Qed.

(** When the registry gave no tag, no row has status Found: every row
    is Missing or N/A, the found-only filter empties the table, and a
    submit never opens the confirmation dialog (it raises the notice,
    or fails on the empty table). *)
Theorem registry_empty (self : Cli.app) (data : Cli.raw) :
  Cli.raw_data self = Some data →
  Cli.docker data = [] →
  (∀ it, it ∈ Cli.visible self data → Cli.stat it = "Missing" ∨ Cli.stat it = "N/A")
  ∧ (Cli.found_only self = true → Cli.rows self data = [])
  ∧ Cli.table (Cli.action_toggle_found self)
    = (if Cli.found_only self then Cli.rows (Cli.action_toggle_found self) data else [])
  ∧ (∀ self', Cli.action_submit self = Cli.Ok self' → ∃ msg, self' = Cli.notify self msg)
  ∧ Cli.action_submit self ≠ Cli.Raised Cli.KeyError.
Proof.
  intros Hraw Hdocker.
  assert (Cli.docker_map (Cli.docker data) = ∅) as Hdm by (by rewrite Hdocker).
  assert (∀ s, Cli.found_only s = true → Cli.rows s data = []) as Hrows.
  { intros s Hf. unfold Cli.rows, Cli.visible. rewrite Hdm.
    by rewrite collect_found_only_empty. }
  split_and!.
  - intros it (_ & -> & _)%visible_item. rewrite Hdm. unfold Cli.mk_item, Cli.stat_of. simpl.
    rewrite has_d_of_empty. destruct (String.eqb _ "Desktop"); eauto.
  - apply Hrows.
  - unfold Cli.action_toggle_found, Cli.update_table. simpl. rewrite Hraw. simpl.
    destruct (Cli.found_only self) eqn:Hf; simpl.
    + apply rows_ext; simpl; by rewrite ?Hf.
    + apply Hrows. simpl. by rewrite ?Hf.
  - intros self'. unfold Cli.action_submit. rewrite Hraw. simpl. rewrite Hdocker. simpl.
    destruct (Cli.table self !! Cli.cursor_row self); [|done].
    rewrite lookup_empty. intros [= <-]. eauto.
  - unfold Cli.action_submit. rewrite Hraw. simpl. rewrite Hdocker. simpl.
    by destruct (Cli.table self !! Cli.cursor_row self).
Qed.

Lemma registry_empty_witness :
  let e v := Rss.Entry (Some v) (Some "Desktop") "2024-03-01T10:00:00Z" (Some "28.2.3")
               (Some ("Obsidian Desktop " +:+ v)) in
  let self := Cli.handle_data_loaded Cli.init (Cli.Raw [e "1.2.0"; e "1.1.0"] [] ∅) in
  Cli.c_status <$> Cli.table self = ["Missing"; "Missing"]
  ∧ Cli.table (Cli.action_toggle_found self) = [].
Proof.
  intros e self. split; [reflexivity|].
  destruct (registry_empty self (Cli.Raw [e "1.2.0"; e "1.1.0"] [] ∅) eq_refl eq_refl)
    as (_ & _ & H & _).
  exact H.
Defined.

(** ** Entries of one version keep the feed order, reversed *)

Section stable.
Context {A K : Type} `{EqDecision K} (lt : K → K → bool) (key : A → K).
Hypothesis lt_irrefl : ∀ k, lt k k = false.

Lemma filter_insert_by (k : K) x l :
  List.filter (λ y, bool_decide (key y = k)) (Py.insert_by lt key x l)
  = List.filter (λ y, bool_decide (key y = k)) (x :: l).
Proof.
  induction l as [|y l IH]; [done|]. cbn [Py.insert_by].
  destruct (lt (key y) (key x)) eqn:E; [|done].
  cbn [List.filter] in *. rewrite IH.
  destruct (decide (key x = k)) as [Hx|Hx], (decide (key y = k)) as [Hy|Hy];
    rewrite ?(bool_decide_eq_true_2 _ Hx), ?(bool_decide_eq_false_2 _ Hx),
      ?(bool_decide_eq_true_2 _ Hy), ?(bool_decide_eq_false_2 _ Hy); try done.
  rewrite Hy, <- Hx, lt_irrefl in E. done.
Qed.

(** The sort keeps the order of the elements that have the same key. *)
Lemma filter_sorted (k : K) l :
  List.filter (λ y, bool_decide (key y = k)) (Py.sorted lt key l)
  = List.filter (λ y, bool_decide (key y = k)) l.
Proof.
  induction l as [|x l IH]; [done|]. cbn [Py.sorted].
  rewrite filter_insert_by. cbn [List.filter]. by rewrite IH.
Qed.
End stable.

Lemma filter_reverse {A} (P : A → bool) (l : list A) :
  List.filter P (reverse l) = reverse (List.filter P l).
Proof.
  induction l as [|x l IH]; [done|].
  rewrite reverse_cons, List.filter_app, IH. cbn [List.filter].
  destruct (P x); [by rewrite reverse_cons|by rewrite app_nil_r].
Qed.

Lemma filter_fill {B} (P : Rss.entry → bool) (f : Rss.entry → B) d l :
  (∀ x e, P (Rss.with_electron x e) = P x) →
  (∀ x e, f (Rss.with_electron x e) = f x) →
  f <$> List.filter P (Rss.fill d l) = f <$> List.filter P l.
Proof.
  intros HP Hf. revert d. induction l as [|x l IH]; intros d; [done|].
  cbn [Rss.fill].
  destruct (Rss.electron x) as [[|c e]|]; cbn [List.filter]; rewrite ?HP;
    destruct (P x); rewrite ?fmap_cons, ?Hf, IH; done.
Qed.

(** Entries whose versions have the same integer components come out
    of [get_data] in the reverse of their order in the feed: the sort
    keeps their order and the final [reverse] turns it round. With a
    feed that lists the newest entry first, the first entry of the
    changelog list for a version is the one the feed lists last. *)
Theorem same_version_feed_order_reversed (feed : list Rss.feed_match) (k : list Z) :
  Rss.title <$>
    List.filter (λ x, bool_decide (Rss.sort_key x = k)) (Rss.get_data feed)
  = reverse (Some ∘ Rss.m_title <$>
               List.filter (λ m, bool_decide (Version.v_parts (Rss.v_num m) = k)) feed).
Proof.
  unfold Rss.get_data, Rss.order_and_fill.
  rewrite filter_reverse, fmap_reverse. f_equal.
  rewrite filter_fill by done.
  rewrite filter_sorted by apply list_lt_irrefl.
  induction feed as [|m feed IH]; [done|]. cbn [fmap list_fmap List.filter].
  change (Rss.sort_key (Rss.build m)) with (Version.v_parts (Rss.v_num m)).
  destruct (bool_decide _); [|done]. rewrite !fmap_cons. f_equal. apply IH.
Qed.

(** ** The key of the [seen] set *)

Lemma dotted_key_inj v1 v2 t1 t2 :
  Cli.dotted_numeric v1 = true → Cli.dotted_numeric v2 = true →
  v1 +:+ "||" +:+ t1 = v2 +:+ "||" +:+ t2 → v1 = v2 ∧ t1 = t2.
Proof.
  revert v2. induction v1 as [|a v1 IH]; intros [|b v2]; simpl.
  - intros _ _ H. split; [done|]. by injection H.
  - intros _ [Hb _]%andb_prop H. injection H as <- _. done.
  - intros [Ha _]%andb_prop _ H. injection H as -> _. done.
  - intros [_ H1]%andb_prop [_ H2]%andb_prop H. injection H as -> Heq.
    by destruct (IH v2 H1 H2 Heq) as [-> ->].
Qed.

(** For entries with versions of digits and dots, as the changelog
    adapter builds them, the string key of the [seen] set stands for
    the pair of version and platform: two entries have the same key
    only if they agree on both. So with the flags [__init__] sets and
    no query, the rows of such data are in one-to-one correspondence
    with the pairs of version and platform that occur. *)
Theorem seen_key_is_version_and_platform (self : Cli.app) (data : Cli.raw) :
  Forall (λ x, Cli.dotted_numeric (Cli.v_of x) = true) (Cli.rss data) →
  (∀ x y, x ∈ Cli.rss data → y ∈ Cli.rss data →
          Cli.seen_key x = Cli.seen_key y → Cli.row_key x = Cli.row_key y)
  ∧ (Cli.show_mobile self = true → Cli.show_early_access self = true →
     Cli.found_only self = false → Cli.search_query self = "" →
     ∀ x, x ∈ Cli.rss data →
          ∃ it, it ∈ Cli.visible self data
                ∧ Cli.row_key (Cli.i_rss it) = Cli.row_key x
                ∧ ∀ it', it' ∈ Cli.visible self data →
                         Cli.row_key (Cli.i_rss it') = Cli.row_key x → it' = it).
Proof.
  intros Hdn. rewrite Forall_forall in Hdn.
  assert (∀ x y, x ∈ Cli.rss data → y ∈ Cli.rss data →
            Cli.seen_key x = Cli.seen_key y → Cli.row_key x = Cli.row_key y) as Hinj.
  { intros x y Hx Hy Hk. unfold Cli.row_key.
    by destruct (dotted_key_inj _ _ _ _ (Hdn x Hx) (Hdn y Hy) Hk) as [-> ->]. }
  split; [done|].
  intros Hm He Hf Hq x Hx.
  set (dm := Cli.docker_map (Cli.docker data)). set (em := Cli.electron data).
  assert (Cli.passes self dm em x = true) as Hp.
  { unfold Cli.passes, Cli.filtered_out, Cli.query_miss. by rewrite Hm, He, Hf, Hq. }
  destruct (collect_covers self dm em ∅ _ x Hx Hp) as [[]%elem_of_empty|(it & Hit & Hk)].
  assert (it ∈ Cli.visible self data) as Hvis by (by apply elem_of_sorted).
  pose proof (visible_item _ _ _ Hvis) as (Hin & _ & _).
  exists it. split_and!; [done|by apply Hinj|].
  intros it' Hvis' Hk'.
  pose proof (collect_first self dm em ∅ _ it Hit) as Hfirst.
  apply elem_of_sorted in Hvis'.
  pose proof (collect_first self dm em ∅ _ it' Hvis') as Hfirst'.
  assert (Cli.row_key (Cli.i_rss it') = Cli.row_key (Cli.i_rss it)) as Hsame.
  { rewrite Hk'. symmetry. by apply Hinj. }
  rewrite Hsame in Hfirst'. rewrite Hfirst in Hfirst'. injection Hfirst' as Hrss.
  apply elem_of_collect in Hit as (? & _ & -> & _), Hvis' as (? & _ & -> & _).
  simpl in Hrss. by rewrite Hrss.
Qed.

Lemma seen_key_is_version_and_platform_witness :
  let e v t := Rss.Entry (Some v) (Some t) "2024-03-01T10:00:00Z" (Some "28.2.3")
                 (Some ("Obsidian " +:+ t +:+ " " +:+ v)) in
  let data := Cli.Raw [e "1.2.0" "Desktop"; e "1.2.0" "Mobile"; e "1.2.0" "Desktop"] [] ∅ in
  Cli.row_key <$> (Cli.i_rss <$> Cli.visible Cli.init data)
  = [("1.2.0", "Mobile"); ("1.2.0", "Desktop")]
  ∧ ∃ it, it ∈ Cli.visible Cli.init data
          ∧ Cli.row_key (Cli.i_rss it) = ("1.2.0", "Mobile")
          ∧ ∀ it', it' ∈ Cli.visible Cli.init data →
                   Cli.row_key (Cli.i_rss it') = ("1.2.0", "Mobile") → it' = it.
Proof.
  intros e data. split; [reflexivity|].
  destruct (seen_key_is_version_and_platform Cli.init data) as [_ H].
  - by repeat constructor.
  - apply (H eq_refl eq_refl eq_refl eq_refl (e "1.2.0" "Mobile")). right. by left.
Defined.
